(** * KellerBot: the message-event orchestration engine

    A shallow embedding of
      - [src/server/message_manager.py]  (MessageObject, MessageManager),
      - [src/groupme/groupme_interface.py] (GroupMeInterface.poll_new_messages),
      - [src/server/bot_controller.py]   (BotController polling loop),
    followed by the properties of the specification checked against it.

    Conventions of the embedding
      - a Python [dict] used as a map is a [gmap string value];
      - Python [float]s are idealised as exact rationals ([Q]); every
        comparison the code makes is made on those rationals, and the
        statements about them are kept to what rounding cannot change
        (orderings, bounds, and values the code holds exactly);
      - a raised exception is the [Raise] alternative of [result];
      - the catalog [self.messages] is only ever appended to (its one
        rebuilding method, [cleanup_old_messages], has no caller), so a
        reference to a [MessageObject] is its position in that list and
        a mutation through the reference is an in-place list update;
      - everything the environment decides (clock readings, random
        samples, HTTP responses, what each generation attempt yields and
        when it completes) is an explicit argument. *)

From Stdlib Require Import ZArith QArith String Ascii List Bool Lia DecimalString.
From stdpp Require Import gmap strings list fin_maps.

Open Scope string_scope.
Open Scope list_scope.

(* ===================================================================== *)
(** * Python values, exceptions, results                                  *)
(* ===================================================================== *)

Module Py.

(** The values of the configuration document that the embedding
    covers: integers, finite floats and strings.  (Python's [json] also
    reads [NaN] and [Infinity], booleans, [null] and containers.) *)
Inductive value : Type :=
| VInt (z : Z)
| VFloat (q : Q)
| VStr (s : string).

(** Numeric view of a value; [None] for a non-number, on which Python's
    arithmetic and ordering against a number raise [TypeError]. *)
Definition as_number (v : value) : option Q :=
  match v with
  | VInt z => Some (inject_Z z)
  | VFloat q => Some q
  | VStr _ => None
  end.

Inductive exn : Type :=
| ValueError (msg : string)
| KeyError (key : string)
| TypeError
| ZeroDivisionError.

(** Outcome of running a (possibly asynchronous) function: it returned,
    it raised, or it is suspended at an [await] that never resolved. *)
Inductive result (A : Type) : Type :=
| Ok (a : A)
| Raise (e : exn)
| Pending.
Arguments Ok {A} a.
Arguments Raise {A} e.
Arguments Pending {A}.

Definition bind {A B} (m : result A) (k : A -> result B) : result B :=
  match m with
  | Ok a => k a
  | Raise e => Raise e
  | Pending => Pending
  end.

(** [x < y] on rationals, as a boolean. *)
Definition Qlt_bool (x y : Q) : bool := negb (Qle_bool y x).

(** [min(x, y)]: Python returns the first argument unless the second
    is strictly smaller. *)
Definition py_min (x y : Q) : Q := if Qlt_bool y x then y else x.

(** [int(x)] on a float: truncation toward zero. *)
Definition py_int (x : Q) : Z := Z.quot (Qnum x) (Z.pos (Qden x)).

(** [str(n)] on an int: its decimal numeral. *)
Definition py_str_int (n : Z) : string := NilZero.string_of_int (Z.to_int n).

(** [needle in hay] on strings: substring test. *)
Fixpoint str_in (needle hay : string) : bool :=
  if String.prefix needle hay then true
  else match hay with
       | EmptyString => false
       | String _ rest => str_in needle rest
       end.

(** [d[key]] *)
Definition getitem (d : gmap string value) (key : string) : result value :=
  match d !! key with
  | Some v => Ok v
  | None => Raise (KeyError key)
  end.

(** [d.get(key, dflt)] *)
Definition get (d : gmap string value) (key : string) (dflt : value) : value :=
  default dflt (d !! key).

(** [d.update(new)]: keys of [new] override. *)
Definition update (d new : gmap string value) : gmap string value := new ∪ d.

(** A value used where a number is required. *)
Definition number (v : value) : result Q :=
  match as_number v with
  | Some q => Ok q
  | None => Raise TypeError
  end.

End Py.
Import Py.

Notation "'let*' x ':=' m 'in' k" := (Py.bind m (fun x => k))
  (at level 10, x name, m at level 100, k at level 200).

(* ===================================================================== *)
(** * server/message_manager.py                                           *)
(* ===================================================================== *)

(** ** class MessageObject *)

Record MessageObject : Type := mkMessageObject {
  mo_id : string;
  mo_message_type : string;
  mo_reply_to_id : option string;
  mo_original_message : option string;
  mo_username : option string;
  mo_timestamp : Z;
  mo_generated_messages : list string;
  mo_selected_message : option string;
  mo_sent : bool;
  mo_deleted : bool;
  mo_generating : bool
}.

(** The environment's clocks: [time.time()] in seconds and
    [datetime.now()] in microseconds since the epoch. *)
Record clock : Type := mkClock {
  time_time : Q;
  datetime_now : Z
}.

(** [MessageObject.__init__] *)
Definition MessageObject_init (c : clock) (message_type : string)
    (reply_to_id original_message username : option string) : MessageObject :=
  {| mo_id := py_str_int (py_int (time_time c * 1000)%Q);
     mo_message_type := message_type;
     mo_reply_to_id := reply_to_id;
     mo_original_message := original_message;
     mo_username := username;
     mo_timestamp := datetime_now c;
     mo_generated_messages := [];
     mo_selected_message := None;
     mo_sent := false;
     mo_deleted := false;
     mo_generating := false |}.

Definition set_generated_messages (l : list string) (o : MessageObject) : MessageObject :=
  {| mo_id := mo_id o; mo_message_type := mo_message_type o;
     mo_reply_to_id := mo_reply_to_id o; mo_original_message := mo_original_message o;
     mo_username := mo_username o; mo_timestamp := mo_timestamp o;
     mo_generated_messages := l;
     mo_selected_message := mo_selected_message o;
     mo_sent := mo_sent o; mo_deleted := mo_deleted o; mo_generating := mo_generating o |}.

Definition set_selected_message (s : option string) (o : MessageObject) : MessageObject :=
  {| mo_id := mo_id o; mo_message_type := mo_message_type o;
     mo_reply_to_id := mo_reply_to_id o; mo_original_message := mo_original_message o;
     mo_username := mo_username o; mo_timestamp := mo_timestamp o;
     mo_generated_messages := mo_generated_messages o;
     mo_selected_message := s;
     mo_sent := mo_sent o; mo_deleted := mo_deleted o; mo_generating := mo_generating o |}.

Definition set_sent (b : bool) (o : MessageObject) : MessageObject :=
  {| mo_id := mo_id o; mo_message_type := mo_message_type o;
     mo_reply_to_id := mo_reply_to_id o; mo_original_message := mo_original_message o;
     mo_username := mo_username o; mo_timestamp := mo_timestamp o;
     mo_generated_messages := mo_generated_messages o;
     mo_selected_message := mo_selected_message o;
     mo_sent := b; mo_deleted := mo_deleted o; mo_generating := mo_generating o |}.

Definition set_deleted (b : bool) (o : MessageObject) : MessageObject :=
  {| mo_id := mo_id o; mo_message_type := mo_message_type o;
     mo_reply_to_id := mo_reply_to_id o; mo_original_message := mo_original_message o;
     mo_username := mo_username o; mo_timestamp := mo_timestamp o;
     mo_generated_messages := mo_generated_messages o;
     mo_selected_message := mo_selected_message o;
     mo_sent := mo_sent o; mo_deleted := b; mo_generating := mo_generating o |}.

Definition set_generating (b : bool) (o : MessageObject) : MessageObject :=
  {| mo_id := mo_id o; mo_message_type := mo_message_type o;
     mo_reply_to_id := mo_reply_to_id o; mo_original_message := mo_original_message o;
     mo_username := mo_username o; mo_timestamp := mo_timestamp o;
     mo_generated_messages := mo_generated_messages o;
     mo_selected_message := mo_selected_message o;
     mo_sent := mo_sent o; mo_deleted := mo_deleted o; mo_generating := b |}.

(** [add_generated_message]: [self.generated_messages.append(message)] *)
Definition add_generated_message (message : string) (o : MessageObject) : MessageObject :=
  set_generated_messages (mo_generated_messages o ++ [message]) o.

Definition start_generation (o : MessageObject) : MessageObject := set_generating true o.

Definition stop_generation (o : MessageObject) : MessageObject := set_generating false o.

(** [select_message]: the returned flag and the object afterwards. *)
Definition select_message (message_index : Z) (o : MessageObject) : bool * MessageObject :=
  if ((0 <=? message_index)%Z && (message_index <? Z.of_nat (length (mo_generated_messages o)))%Z)%bool
  then (true, set_selected_message (mo_generated_messages o !! Z.to_nat message_index) o)
  else (false, o).

(** ** class MessageManager *)

Record MessageManager : Type := mkMessageManager {
  config : gmap string value;
  (** contents of the file at [config_path]; [None] while it does not exist *)
  saved_config : option (gmap string value);
  messages : list MessageObject;
  last_random_message_time : Z;
  messages_per_day : Z
}.

Definition set_config (cfg : gmap string value) (m : MessageManager) : MessageManager :=
  {| config := cfg; saved_config := saved_config m; messages := messages m;
     last_random_message_time := last_random_message_time m;
     messages_per_day := messages_per_day m |}.

Definition set_messages (l : list MessageObject) (m : MessageManager) : MessageManager :=
  {| config := config m; saved_config := saved_config m; messages := l;
     last_random_message_time := last_random_message_time m;
     messages_per_day := messages_per_day m |}.

Definition set_counter (n last : Z) (m : MessageManager) : MessageManager :=
  {| config := config m; saved_config := saved_config m; messages := messages m;
     last_random_message_time := last;
     messages_per_day := n |}.

(** The defaults [load_config] returns when the file is missing. *)
Definition default_config : gmap string value :=
  {[ "random_messages_per_day" := VInt 5;
     "reply_chance_per_like" := VFloat (3 # 10);
     "minimum_reply_chance" := VFloat (1 # 100);
     "message_generation_tries" := VInt 3;
     "polling_interval_seconds" := VInt 120;
     "introduction_prompt" :=
       VStr "Introduce yourself as a friendly bot that's here to chat and help out!" ]}.

Definition load_config (file : option (gmap string value)) : gmap string value :=
  default default_config file.

(** [save_config]: the file now holds the current configuration. *)
Definition save_config (m : MessageManager) : MessageManager :=
  {| config := config m; saved_config := Some (config m); messages := messages m;
     last_random_message_time := last_random_message_time m;
     messages_per_day := messages_per_day m |}.

(** [reset_daily_counter] *)
Definition reset_daily_counter (now : Z) (m : MessageManager) : MessageManager :=
  set_counter 0 now m.

(** [MessageManager.__init__] *)
Definition MessageManager_init (file : option (gmap string value)) (now : Z) : MessageManager :=
  reset_daily_counter now
    {| config := load_config file; saved_config := file; messages := [];
       last_random_message_time := now; messages_per_day := 0 |}.

(** The validation at the head of [update_config]. *)
Definition validate_polling_interval (new_config : gmap string value) : result unit :=
  match new_config !! "polling_interval_seconds" with
  | None => Ok tt
  | Some polling_interval =>
      let* q := number polling_interval in
      if Qle_bool q 0%Q
      then Raise (ValueError "Polling interval must be greater than 0 seconds")
      else if Qlt_bool 3600%Q q
      then Raise (ValueError "Polling interval cannot be more than 3600 seconds (1 hour)")
      else Ok tt
  end.

(** [update_config] *)
Definition update_config (new_config : gmap string value) (m : MessageManager)
    : result unit * MessageManager :=
  match validate_polling_interval new_config with
  | Ok _ => (Ok tt, save_config (set_config (Py.update (config m) new_config) m))
  | Raise e => (Raise e, m)
  | Pending => (Pending, m)
  end.

(** [should_send_random_message].  [now] is the reading of
    [datetime.now()], [sample] the value of [random.random()].
    [(now - last).days] is the floor of the difference in days. *)
Definition should_send_random_message (now : Z) (sample : Q) (m : MessageManager)
    : result bool * MessageManager :=
  let m1 :=
    if (1 <=? (now - last_random_message_time m) / 86400000000)%Z
    then reset_daily_counter now m else m in
  let decision :=
    let* polling_interval := number (Py.get (config m1) "polling_interval_seconds" (VInt 120)) in
    let seconds_per_day := inject_Z (24 * 60 * 60) in
    if Qeq_bool polling_interval 0%Q then Raise ZeroDivisionError else
    let cycles_per_day := (seconds_per_day / polling_interval)%Q in
    let* target := getitem (config m1) "random_messages_per_day" in
    let* target_messages := number target in
    let probability_per_cycle := (target_messages / cycles_per_day)%Q in
    Ok (Qlt_bool sample probability_per_cycle) in
  (decision, m1).

(** ** Generation attempts and [asyncio.gather] *)

(** What one generation coroutine yields: a text, or an exception whose
    [str()] is [err]. *)
Inductive attempt : Type :=
| Returned (text : string)
| Failed (err : string).

(** Completions arrive in the order of [schedule] (positions of the
    awaitables); each one fills the slot of its own awaitable. *)
Fixpoint fill_slots (tasks : list attempt) (schedule : list nat)
    (slots : list (option attempt)) : list (option attempt) :=
  match schedule with
  | [] => slots
  | i :: rest =>
      fill_slots tasks rest
        (match tasks !! i with
         | Some a => <[i := Some a]> slots
         | None => slots
         end)
  end.

(** [await asyncio.gather] over the tasks with [return_exceptions=True]: resolves once
    every awaitable has completed, with the list of their results read
    off the slots, exceptions included as values; [None] while some
    awaitable is still outstanding. *)
Definition gather (tasks : list attempt) (schedule : list nat) : option (list attempt) :=
  mapM (fun slot : option attempt => slot)
       (fill_slots tasks schedule (replicate (length tasks) None)).

(** The candidate text recorded for one result of the batch. *)
Definition candidate_text (message_type : string) (a : attempt) : string :=
  match a with
  | Failed err => "Error generating " +:+ message_type +:+ ": " +:+ err
  | Returned text => text
  end.

(** The [for i, message in enumerate(messages)] loop of
    [_execute_generation_tasks], on the object itself. *)
Definition record_results (message_type : string) (results : list attempt)
    (o : MessageObject) : MessageObject :=
  foldl (fun acc a => add_generated_message (candidate_text message_type a) acc) o results.

(** [_execute_generation_tasks].  [r] is the reference to [message_obj];
    [m] is the manager as it is when [gather] resolves.  With
    [return_exceptions=True] nothing in the [try] body raises on
    results of type [attempt], so the outer handler is not entered. *)
Definition _execute_generation_tasks (r : nat) (tasks : list attempt) (schedule : list nat)
    (message_type : string) (m : MessageManager) : result unit * MessageManager :=
  match gather tasks schedule with
  | None => (Pending, m)
  | Some results =>
      (Ok tt, set_messages (alter (record_results message_type results) r (messages m)) m)
  end.

(** [self.messages.append(message_obj)]; the reference is the position. *)
Definition register (o : MessageObject) (m : MessageManager) : nat * MessageManager :=
  (length (messages m), set_messages (messages m ++ [o]) m).

(** The task-creation loop [for i in range(self.config["message_generation_tries"])]:
    attempt [i] will yield [backend i]. *)
Definition make_tasks (cfg : gmap string value) (backend : nat -> attempt)
    : result (list attempt) :=
  let* tries := getitem cfg "message_generation_tries" in
  match tries with
  | VInt n => Ok (backend <$> seq 0 (Z.to_nat n))
  | _ => Raise TypeError
  end.

(** What the environment supplies to one batch: the clock at creation,
    the backend, the completion schedule, what the other tasks did to the
    manager while this one was suspended in [gather], and the clock at
    the end. *)
Record batch_env : Type := mkBatchEnv {
  created : clock;
  backend : nat -> attempt;
  schedule : list nat;
  interleaved : MessageManager -> MessageManager;
  finished : Z
}.

(** The part shared by the four [generate_*] methods after the object
    has been built: register, make the tasks, await them, stop. *)
Definition run_batch (message_type : string) (message_obj : MessageObject)
    (env : batch_env) (m : MessageManager) : result nat * MessageManager :=
  let '(r, m1) := register (start_generation message_obj) m in
  match make_tasks (config m1) (backend env) with
  | Raise e => (Raise e, m1)
  | Pending => (Pending, m1)
  | Ok tasks =>
      match _execute_generation_tasks r tasks (schedule env) message_type (interleaved env m1) with
      | (Ok _, m2) => (Ok r, set_messages (alter stop_generation r (messages m2)) m2)
      | (Raise e, m2) => (Raise e, m2)
      | (Pending, m2) => (Pending, m2)
      end
  end.

(** [generate_random_message] *)
Definition generate_random_message (env : batch_env) (m : MessageManager)
    : result nat * MessageManager :=
  match run_batch "random" (MessageObject_init (created env) "random" None None None) env m with
  | (Ok r, m2) => (Ok r, set_counter (messages_per_day m2 + 1) (finished env) m2)
  | other => other
  end.

(** The fixed trigger test of [generate_reply_message]. *)
Definition references_keller (original_message : string) : bool :=
  str_in "Keller" original_message || str_in "keller" original_message.

(** The value of [reply_probability] when the random decision is made. *)
Definition reply_probability (cfg : gmap string value) (original_message : string)
    (likes : Z) : result Q :=
  let* chance_v := getitem cfg "reply_chance_per_like" in
  let* chance := number chance_v in
  let p0 := py_min (chance * inject_Z likes)%Q 1%Q in
  let p1 := if references_keller original_message then (p0 + 1)%Q else p0 in
  let* minimum_v := getitem cfg "minimum_reply_chance" in
  let* minimum := number minimum_v in
  Ok (if Qlt_bool p1 minimum then minimum else p1).

(** [generate_reply_message]; [Ok None] is the skipped reply. *)
Definition generate_reply_message (reply_to_id original_message : string) (likes : Z)
    (username : option string) (sample : Q) (env : batch_env) (m : MessageManager)
    : result (option nat) * MessageManager :=
  match reply_probability (config m) original_message likes with
  | Raise e => (Raise e, m)
  | Pending => (Pending, m)
  | Ok p =>
      if Qlt_bool p sample then (Ok None, m)
      else
        match run_batch "reply"
                (MessageObject_init (created env) "reply" (Some reply_to_id)
                   (Some original_message) username) env m with
        | (Ok r, m2) => (Ok (Some r), m2)
        | (Raise e, m2) => (Raise e, m2)
        | (Pending, m2) => (Pending, m2)
        end
  end.

(** [generate_manual_message] *)
Definition generate_manual_message (env : batch_env) (m : MessageManager)
    : result nat * MessageManager :=
  run_batch "manual" (MessageObject_init (created env) "manual" None None None) env m.

(** ** Catalog operations *)

(** [get_pending_messages] *)
Definition get_pending_messages (m : MessageManager) : list MessageObject :=
  List.filter (fun msg => negb (mo_sent msg) && negb (mo_deleted msg)) (messages m).

(** [get_generating_messages_count] *)
Definition get_generating_messages_count (m : MessageManager) : nat :=
  length (List.filter mo_generating (messages m)).

(** The position of the first object of the list whose id is [message_id]. *)
Fixpoint first_with_id (message_id : string) (l : list MessageObject) : option nat :=
  match l with
  | [] => None
  | msg :: rest =>
      if String.eqb (mo_id msg) message_id then Some 0%nat
      else S <$> first_with_id message_id rest
  end.

(** [get_message_by_id]: a reference to the first match, or [None]. *)
Definition get_message_by_id (message_id : string) (m : MessageManager) : option nat :=
  first_with_id message_id (messages m).

(** [mark_message_sent] *)
Definition mark_message_sent (message_id : string) (m : MessageManager) : MessageManager :=
  match get_message_by_id message_id m with
  | Some r => set_messages (alter (set_sent true) r (messages m)) m
  | None => m
  end.

(** [delete_message] *)
Definition delete_message (message_id : string) (m : MessageManager) : MessageManager :=
  match get_message_by_id message_id m with
  | Some r => set_messages (alter (set_deleted true) r (messages m)) m
  | None => m
  end.

(* ===================================================================== *)
(** * groupme/groupme_interface.py                                        *)
(* ===================================================================== *)

(** One element of the [messages] array of the platform's answer, with
    the keys the code reads.  Every key is taken to be present, so the
    defaults of [msg.get] are left out, and [text] to be a string (the
    platform sends [null] for a message that is an attachment only). *)
Record RawMessage : Type := mkRawMessage {
  rm_id : string;
  rm_text : string;
  rm_user_id : string;
  rm_name : string;
  rm_created_at : Z;
  rm_favorited_by : list string
}.

(** The dictionary [message_info] built for each new message. *)
Record MessageInfo : Type := mkMessageInfo {
  mi_id : string;
  mi_text : string;
  mi_user_id : string;
  mi_name : string;
  mi_created_at : Z;
  mi_likes : Z;
  mi_group_id : string;
  mi_reply_to_id : string;
  mi_username : string
}.

(** What [requests.get] followed by [raise_for_status] gives. *)
Inductive http_response : Type :=
| RequestException (err : string)
| Response (msgs : list RawMessage).

Record GroupMeInterface : Type := mkGroupMeInterface {
  access_token : string;
  bot_group_id : option string;
  last_message_time : Z;
  current_user_id : string
}.

Definition set_last_message_time (t : Z) (g : GroupMeInterface) : GroupMeInterface :=
  {| access_token := access_token g; bot_group_id := bot_group_id g;
     last_message_time := t; current_user_id := current_user_id g |}.

(** [GroupMeInterface.__init__] once [_get_current_user] has succeeded. *)
Definition GroupMeInterface_init (group_id : option string) (token user_id : string)
    : GroupMeInterface :=
  {| access_token := token; bot_group_id := group_id;
     last_message_time := 0; current_user_id := user_id |}.

Definition message_info (group_id : string) (msg : RawMessage) : MessageInfo :=
  {| mi_id := rm_id msg;
     mi_text := rm_text msg;
     mi_user_id := rm_user_id msg;
     mi_name := rm_name msg;
     mi_created_at := rm_created_at msg;
     mi_likes := Z.of_nat (length (rm_favorited_by msg));
     mi_group_id := group_id;
     mi_reply_to_id := rm_id msg;
     mi_username := rm_name msg |}.

(** The [for msg in messages] loop of [poll_new_messages]. *)
Fixpoint collect_new (g : GroupMeInterface) (group_id : string) (msgs : list RawMessage)
    : list MessageInfo :=
  match msgs with
  | [] => []
  | msg :: rest =>
      if (last_message_time g <? rm_created_at msg)%Z
      then if negb (String.eqb (rm_user_id msg) (current_user_id g))
           then message_info group_id msg :: collect_new g group_id rest
           else collect_new g group_id rest
      else collect_new g group_id rest
  end.

(** [max(msg['created_at'] for msg in new_messages)] on a list with head
    [first]. *)
Definition max_created_at (first : MessageInfo) (rest : list MessageInfo) : Z :=
  foldl (fun acc info => Z.max acc (mi_created_at info)) (mi_created_at first) rest.

(** [poll_new_messages]; [resp] is the platform's answer to the request. *)
Definition poll_new_messages (resp : http_response) (g : GroupMeInterface)
    : result (list MessageInfo) * GroupMeInterface :=
  match bot_group_id g with
  | None | Some "" =>
      (Raise (ValueError "Bot server group ID not set. Use set_bot_server() first."), g)
  | Some group_id =>
      if String.eqb (access_token g) ""
      then (Raise (ValueError "GroupMe access token is required"), g)
      else
        match resp with
        | RequestException err =>
            (Raise (ValueError ("Error fetching messages from bot server: " +:+ err)), g)
        | Response msgs =>
            let first_run := (last_message_time g =? 0)%Z in
            let new_messages := collect_new g group_id msgs in
            let g' :=
              match new_messages with
              | [] => g
              | first :: rest => set_last_message_time (max_created_at first rest) g
              end in
            (Ok (if first_run then [] else new_messages), g')
        end
  end.

(* ===================================================================== *)
(** * server/bot_controller.py                                            *)
(* ===================================================================== *)

(** A coroutine handed to [asyncio.create_task]; it runs on its own, the
    loop does not await it. *)
Inductive task : Type :=
| ReplyTask (reply_to_id original_text : string) (likes : Z) (username : string)
| RandomTask.

(** What the loop does that can be observed: error-level log records
    (named by the fixed part of their text), sleeps, tasks handed to the
    event loop, and the exception, if any, that ends the coroutine.  Info
    and debug records are left out. *)
Inductive event : Type :=
| LogError (prefix : string)
| Sleep (seconds : Q)
| CreateTask (t : task)
| CoroutineRaised (e : exn).

Record BotController : Type := mkBotController {
  groupme_interface : GroupMeInterface;
  message_manager : MessageManager;
  running : bool
}.

(** What the environment supplies to one iteration of the loop. *)
Record cycle_env : Type := mkCycleEnv {
  response : http_response;
  now : Z;
  sample : Q
}.

(** [_process_incoming_message]: one reply task per message.  The body
    sits in a [try] whose handler logs; on a text that is a string
    nothing in it raises. *)
Definition _process_incoming_message (message_data : MessageInfo) : event :=
  CreateTask (ReplyTask (mi_id message_data) (mi_text message_data)
                (mi_likes message_data) (mi_username message_data)).

(** [_process_polling_cycle]: every exception is caught in the method. *)
Definition _process_polling_cycle (env : cycle_env) (bc : BotController)
    : list event * BotController :=
  let '(polled, g') := poll_new_messages (response env) (groupme_interface bc) in
  match polled with
  | Ok new_messages =>
      let replies := _process_incoming_message <$> new_messages in
      let '(decision, m') :=
        should_send_random_message (now env) (sample env) (message_manager bc) in
      let bc' := {| groupme_interface := g'; message_manager := m'; running := running bc |} in
      match decision with
      | Ok true => (replies ++ [CreateTask RandomTask], bc')
      | Ok false => (replies, bc')
      | _ => (replies ++ [LogError "Error processing polling cycle"], bc')
      end
  | _ =>
      ([LogError "Error processing polling cycle"],
       {| groupme_interface := g'; message_manager := message_manager bc;
          running := running bc |})
  end.

(** Python's [==] on configuration values: numbers compare by value. *)
Definition value_eqb (v w : value) : bool :=
  match v, w with
  | VStr a, VStr b => String.eqb a b
  | VStr _, _ | _, VStr _ => false
  | _, _ =>
      match as_number v, as_number w with
      | Some a, Some b => Qeq_bool a b
      | _, _ => false
      end
  end.

(** [last_polling_interval != polling_interval], where the former starts
    as [None]. *)
Definition interval_changed (last : option value) (polling_interval : value) : bool :=
  match last with
  | None => true
  | Some v => negb (value_eqb v polling_interval)
  end.

(** The handler [except Exception] of [_polling_loop]. *)
Definition loop_recovery : list event :=
  [LogError "Error in polling loop"; Sleep 60%Q].

(** One pass through the body of [while self.running].  The record
    logged on a change of interval formats [polling_interval/60], and
    [asyncio.sleep] compares its argument with [0]: both raise
    [TypeError] on a non-number. *)
Definition loop_iteration (env : cycle_env) (last : option value) (bc : BotController)
    : list event * option value * BotController :=
  let polling_interval :=
    Py.get (config (message_manager bc)) "polling_interval_seconds" (VInt 120) in
  let changed := interval_changed last polling_interval in
  match (if changed then number polling_interval else Ok 0%Q) with
  | Ok _ =>
      let last' := if changed then Some polling_interval else last in
      let '(events, bc') := _process_polling_cycle env bc in
      match number polling_interval with
      | Ok seconds => (events ++ [Sleep seconds], last', bc')
      | _ => (events ++ loop_recovery, last', bc')
      end
  | _ => (loop_recovery, last, bc)
  end.

(** The [while self.running] of [_polling_loop], one iteration per
    element of [envs], for as long as [self.running] holds. *)
Fixpoint polling_iterations (envs : list cycle_env) (last : option value)
    (bc : BotController) : list event * BotController :=
  match envs with
  | [] => ([], bc)
  | env :: rest =>
      if running bc
      then let '(events, last', bc') := loop_iteration env last bc in
           let '(later, bc'') := polling_iterations rest last' bc' in
           (events ++ later, bc'')
      else ([], bc)
  end.

(** [_polling_loop].  Before the loop, and outside every handler, the
    coroutine reads the interval and logs [initial_polling_interval/60]:
    on an interval that is not a number the [TypeError] of the division
    ends the coroutine before the first iteration. *)
Definition _polling_loop (envs : list cycle_env) (bc : BotController)
    : list event * BotController :=
  let initial_polling_interval :=
    Py.get (config (message_manager bc)) "polling_interval_seconds" (VInt 120) in
  match number initial_polling_interval with
  | Ok _ => polling_iterations envs None bc
  | _ => ([CoroutineRaised TypeError], bc)
  end.

(** [send_selected_message]; [delivered] tells whether the call of
    [groupme_interface.send_message] returned: it raises [ValueError] on
    an unset group or token, on a text that is blank once stripped, and
    on a failed request. *)
Definition send_selected_message (message_id : string) (delivered : bool)
    (bc : BotController) : bool * BotController :=
  match get_message_by_id message_id (message_manager bc) with
  | None => (false, bc)
  | Some r =>
      match messages (message_manager bc) !! r with
      | Some {| mo_selected_message := Some text |} =>
          if String.eqb text "" then (false, bc)
          else if delivered
          then (true, {| groupme_interface := groupme_interface bc;
                         message_manager := mark_message_sent message_id (message_manager bc);
                         running := running bc |})
          else (false, bc)
      | _ => (false, bc)
      end
  end.

(* ===================================================================== *)
(** * Further operations of the same files                                *)
(* ===================================================================== *)

(** ** server/message_manager.py *)

(** [generate_introduction_message].  The object is registered first;
    then [self.config["introduction_prompt"]] is read, the header record
    reads [self.config['message_generation_tries']], and the next record
    slices the prompt ([prompt[:100]], a [TypeError] on a number); from
    there on it is the common batch. *)
Definition generate_introduction_message (env : batch_env) (m : MessageManager)
    : result nat * MessageManager :=
  let message_obj := MessageObject_init (created env) "introduction" None None None in
  let m1 := snd (register (start_generation message_obj) m) in
  match getitem (config m1) "introduction_prompt" with
  | Ok prompt =>
      match getitem (config m1) "message_generation_tries" with
      | Ok _ =>
          match prompt with
          | VStr _ => run_batch "introduction" message_obj env m
          | _ => (Raise TypeError, m1)
          end
      | Raise e => (Raise e, m1)
      | Pending => (Pending, m1)
      end
  | Raise e => (Raise e, m1)
  | Pending => (Pending, m1)
  end.

(** [cleanup_old_messages]; [now] is the reading of [datetime.now()] and
    [timedelta(days=days)] is [days] times 86400 seconds, in
    microseconds. *)
Definition cleanup_old_messages (now : Z) (days : Z) (m : MessageManager) : MessageManager :=
  let cutoff_time := (now - days * 86400000000)%Z in
  set_messages (List.filter (fun msg => (cutoff_time <? mo_timestamp msg)%Z) (messages m)) m.

(** ** message_gen/message_generator.py *)

Record MessageGenerator : Type := mkMessageGenerator {
  common_phrases : list string;
  message_types : list string
}.

(** What [await self.client.responses.create] gives: a response with its
    [output_text], or any exception. *)
Inductive api_outcome : Type :=
| ApiText (output_text : string)
| ApiError.

(** [generate_message].  The message type and the reply flag only shape
    the prompt, whose effect is in [api]; [pick] is the position drawn by
    [random.choice(self.common_phrases)] in the handler. *)
Definition generate_message (gen : MessageGenerator) (message_type : option string)
    (reply : bool) (api : api_outcome) (pick : nat) : attempt :=
  match common_phrases gen with
  | [] => Failed "No common phrases found. Please add phrases to common_phrases.txt"
  | first :: _ =>
      match api with
      | ApiText output_text => Returned output_text
      | ApiError =>
          Returned (nth (pick mod length (common_phrases gen)) (common_phrases gen) first)
      end
  end.

(** [generate_reply] *)
Definition generate_reply (gen : MessageGenerator) (original_message : string)
    (api : api_outcome) (pick : nat) : attempt :=
  generate_message gen (Some ("reply to this message: " +:+ original_message)) true api pick.

(** [generate_introduction] *)
Definition generate_introduction (gen : MessageGenerator) (prompt : string)
    (api : api_outcome) (pick : nat) : attempt :=
  generate_message gen (Some ("introduction: " +:+ prompt)) false api pick.

(** ** groupme/groupme_interface.py *)

(** [set_bot_server] *)
Definition set_bot_server (group_id : string) (g : GroupMeInterface) : GroupMeInterface :=
  {| access_token := access_token g; bot_group_id := Some group_id;
     last_message_time := 0; current_user_id := current_user_id g |}.

(** ** server/bot_controller.py *)

(** [BotController.select_message_option]: the object found is updated
    in place. *)
Definition select_message_option (message_id : string) (option_index : Z)
    (bc : BotController) : bool * BotController :=
  match get_message_by_id message_id (message_manager bc) with
  | None => (false, bc)
  | Some r =>
      match messages (message_manager bc) !! r with
      | None => (false, bc)
      | Some message_obj =>
          let '(ok, message_obj') := select_message option_index message_obj in
          (ok, {| groupme_interface := groupme_interface bc;
                  message_manager :=
                    set_messages (<[r := message_obj']> (messages (message_manager bc)))
                      (message_manager bc);
                  running := running bc |})
      end
  end.

(** [BotController.delete_message] *)
Definition controller_delete_message (message_id : string) (bc : BotController)
    : BotController :=
  {| groupme_interface := groupme_interface bc;
     message_manager := delete_message message_id (message_manager bc);
     running := running bc |}.

(** [BotController.update_config] *)
Definition controller_update_config (new_config : gmap string value) (bc : BotController)
    : result unit * BotController :=
  let '(r, m) := update_config new_config (message_manager bc) in
  (r, {| groupme_interface := groupme_interface bc; message_manager := m;
         running := running bc |}).

(* ===================================================================== *)
(** * Vocabulary of the statements                                        *)
(* ===================================================================== *)

(** The results of a batch listed in the order in which the attempts
    completed (the order the specification speaks of). *)
Definition completion_order (tasks : list attempt) (schedule : list nat) : list attempt :=
  omap (fun i => tasks !! i) schedule.

(** [f] is something the other tasks may do to the manager while a batch
    is suspended: it keeps the object at reference [r] in place and does
    not touch its candidates. *)
Definition leaves_candidates (r : nat) (f : MessageManager -> MessageManager) : Prop :=
  forall m o, messages m !! r = Some o ->
    exists o', messages (f m) !! r = Some o' /\
               mo_generated_messages o' = mo_generated_messages o.

(** ASCII lower-casing, to speak of a keyword "in any letter case". *)
Definition to_lower_ascii (c : ascii) : ascii :=
  let n := nat_of_ascii c in
  if ((65 <=? n) && (n <=? 90))%nat then ascii_of_nat (n + 32) else c.

Fixpoint to_lower (s : string) : string :=
  match s with
  | EmptyString => EmptyString
  | String c rest => String (to_lower_ascii c) (to_lower rest)
  end.

(** The text contains the trigger keyword, letter case ignored. *)
Definition mentions_keyword_any_case (text : string) : bool :=
  str_in "keller" (to_lower text).

(** The interface can reach the request: group set, token present. *)
Definition ready (g : GroupMeInterface) (group_id : string) : Prop :=
  bot_group_id g = Some group_id /\ group_id <> "" /\ access_token g <> "".

(** Successive calls of [poll_new_messages], one per response: the
    messages handed back over all the calls, and the final state. *)
Fixpoint poll_repeatedly (resps : list http_response) (g : GroupMeInterface)
    : list MessageInfo * GroupMeInterface :=
  match resps with
  | [] => ([], g)
  | resp :: rest =>
      let '(polled, g1) := poll_new_messages resp g in
      let '(later, g2) := poll_repeatedly rest g1 in
      (match polled with Ok new_messages => new_messages ++ later | _ => later end, g2)
  end.

(** Some step of the cycle (fetch, or the random trigger) raises. *)
Definition cycle_raises (env : cycle_env) (bc : BotController) : bool :=
  match fst (poll_new_messages (response env) (groupme_interface bc)) with
  | Raise _ => true
  | Ok _ =>
      match fst (should_send_random_message (now env) (sample env) (message_manager bc)) with
      | Raise _ => true
      | _ => false
      end
  | Pending => false
  end.

Definition is_create_task (e : event) : Prop := exists t, e = CreateTask t.

(** ** Concrete inputs used by the examples *)

Definition sample_clock : clock :=
  {| time_time := (17000000000004 # 10000)%Q; datetime_now := 1700000000000400 |}.

Definition later_clock : clock :=
  {| time_time := (17000000000008 # 10000)%Q; datetime_now := 1700000000000800 |}.

Definition fresh_manager : MessageManager := MessageManager_init None 1700000000000000.

(** A catalog holding one entity, whose id is ["1700000000000"]. *)
Definition one_entity : MessageManager :=
  snd (register (MessageObject_init sample_clock "manual" None None None) fresh_manager).

Definition three_attempts (i : nat) : attempt :=
  match i with
  | 0%nat => Returned "A"
  | 1%nat => Returned "B"
  | _ => Failed "backend unavailable"
  end.

(** Three attempts, the failing one completing first, while the operator
    deletes an entity. *)
Definition sample_batch : batch_env :=
  {| created := sample_clock;
     backend := three_attempts;
     schedule := [2; 0; 1]%nat;
     interleaved := delete_message "1700000000000";
     finished := 1700000002000000 |}.

Definition quiet_batch : batch_env :=
  {| created := sample_clock;
     backend := fun _ => Returned "ok";
     schedule := [0; 1; 2]%nat;
     interleaved := fun m => m;
     finished := 1700000002000000 |}.

Definition fresh_interface : GroupMeInterface :=
  GroupMeInterface_init (Some "g1") "token" "bot".

Definition own_message : RawMessage :=
  mkRawMessage "10" "hello from the bot" "bot" "KellerBot" 100 [].

Definition foreign_message : RawMessage :=
  mkRawMessage "11" "hi Keller" "u7" "Ann" 200 ["u8"].

Definition fresh_controller : BotController :=
  {| groupme_interface := fresh_interface;
     message_manager := fresh_manager;
     running := true |}.

Definition failing_cycle : cycle_env :=
  mkCycleEnv (RequestException "503 Server Error") 1700000000000000 (1 # 2)%Q.

(** ** Vocabulary of the further properties *)

(** The polling interval the loop will read is a number of (0, 3600]. *)
Definition interval_valid (cfg : gmap string value) : Prop :=
  exists q, number (Py.get cfg "polling_interval_seconds" (VInt 120)) = Ok q /\
            (0 < q)%Q /\ (q <= 3600)%Q.

Definition is_sleep (e : event) : bool :=
  match e with Sleep _ => true | _ => false end.

(** The test of the loop in [poll_new_messages], as a predicate. *)
Definition is_new_foreign (g : GroupMeInterface) (msg : RawMessage) : bool :=
  (last_message_time g <? rm_created_at msg)%Z
  && negb (String.eqb (rm_user_id msg) (current_user_id g)).

(** A generator with two phrases and one without any. *)
Definition two_phrases : MessageGenerator :=
  mkMessageGenerator ["send it"; "IC Lawn"] ["drunk text"].

Definition no_phrases : MessageGenerator := mkMessageGenerator [] ["drunk text"].

Definition keeps_counters (f : MessageManager -> MessageManager) : Prop :=
  forall m, messages_per_day (f m) = messages_per_day m /\
            last_random_message_time (f m) = last_random_message_time m.

(** What no pass of the loop changes. *)
Definition same_setup (bc bc' : BotController) : Prop :=
  running bc' = running bc /\
  config (message_manager bc') = config (message_manager bc) /\
  saved_config (message_manager bc') = saved_config (message_manager bc) /\
  messages (message_manager bc') = messages (message_manager bc) /\
  access_token (groupme_interface bc') = access_token (groupme_interface bc) /\
  bot_group_id (groupme_interface bc') = bot_group_id (groupme_interface bc) /\
  current_user_id (groupme_interface bc') = current_user_id (groupme_interface bc).

(** ** Further concrete inputs *)

Definition no_width_manager : MessageManager :=
  set_config (delete "message_generation_tries" default_config) fresh_manager.

Definition zero_width_manager : MessageManager :=
  set_config (<[ "message_generation_tries" := VInt 0 ]> default_config) fresh_manager.

Definition no_prompt_manager : MessageManager :=
  set_config (delete "introduction_prompt" default_config) fresh_manager.

(** A controller whose one entity has the candidate ["hi"], selected. *)
Definition selected_controller : BotController :=
  {| groupme_interface := fresh_interface;
     message_manager :=
       set_messages
         (alter (fun o => snd (select_message 0 (add_generated_message "hi" o)))
            0%nat (messages one_entity))
         one_entity;
     running := true |}.

(** An interface whose cursor has left zero. *)
Definition warm_interface : GroupMeInterface := set_last_message_time 150 fresh_interface.

(** A backend that answers every other call. *)
Definition flaky_api (i : nat) : api_outcome :=
  if Nat.even i then ApiText "get to the IC Lawn" else ApiError.

Definition generator_batch : batch_env :=
  {| created := sample_clock;
     backend := fun i => generate_message two_phrases None false (flaky_api i) i;
     schedule := [0; 1; 2]%nat;
     interleaved := fun m => m;
     finished := 1700000002000000 |}.

(* ===================================================================== *)
(** * Properties                                                          *)
(* ===================================================================== *)

Ltac evaluate := vm_compute; reflexivity.

(** ** Comparisons on rationals *)

Lemma Qlt_bool_iff (x y : Q) : Qlt_bool x y = true <-> (x < y)%Q.
Proof.
  unfold Qlt_bool. rewrite negb_true_iff. split.
  - intros H. apply Qnot_le_lt. intros Hle. apply Qle_bool_iff in Hle. congruence.
  - intros H. destruct (Qle_bool y x) eqn:E; [|done].
    apply Qle_bool_iff in E. exfalso. apply (Qlt_not_le _ _ H E).
Qed.

Lemma Qlt_bool_false_iff (x y : Q) : Qlt_bool x y = false <-> (y <= x)%Q.
Proof. unfold Qlt_bool. rewrite negb_false_iff. apply Qle_bool_iff. Qed.

Lemma py_min_nonneg (x : Q) : (0 <= x)%Q -> (0 <= py_min x 1)%Q.
Proof.
  intros Hx. unfold py_min. destruct (Qlt_bool 1 x); [discriminate | exact Hx].
Qed.

(** ** Configuration updates *)

(** Claim C7.  An update whose [polling_interval_seconds] is a number at
    most 0 or above 3600 raises [ValueError] to the caller and leaves the
    manager, with its configuration and the saved file, as it was. *)
Theorem update_config_rejects_out_of_range (m : MessageManager)
    (new_config : gmap string value) (v : value) (q : Q) :
  new_config !! "polling_interval_seconds" = Some v ->
  as_number v = Some q ->
  (q <= 0)%Q \/ (3600 < q)%Q ->
  exists msg, update_config new_config m = (Raise (ValueError msg), m).
Proof.
  intros Hkey Hnum Hrange.
  unfold update_config, validate_polling_interval, number.
  rewrite Hkey, Hnum. cbn [Py.bind].
  destruct (Qle_bool q 0) eqn:Hle.
  - eauto.
  - destruct Hrange as [Hlow | Hhigh].
    + apply Qle_bool_iff in Hlow. congruence.
    + apply Qlt_bool_iff in Hhigh. rewrite Hhigh. eauto.
Qed.

(** The two values the specification names, 0 and 3601. *)
Lemma update_config_rejects_out_of_range_witness :
  (exists msg, update_config {[ "polling_interval_seconds" := VInt 0 ]} fresh_manager
               = (Raise (ValueError msg), fresh_manager)) /\
  (exists msg, update_config {[ "polling_interval_seconds" := VInt 3601;
                                "random_messages_per_day" := VInt 9 ]} fresh_manager
               = (Raise (ValueError msg), fresh_manager)).
Proof.
  split.
  - apply (update_config_rejects_out_of_range _ _ (VInt 0) (inject_Z 0)).
    + reflexivity.
    + reflexivity.
    + left. discriminate.
  - apply (update_config_rejects_out_of_range _ _ (VInt 3601) (inject_Z 3601)).
    + reflexivity.
    + reflexivity.
    + right. reflexivity.
Defined.

(** An update inside the range goes through and is saved. *)
Example update_config_accepts_3600 :
  let '(r, m) := update_config {[ "polling_interval_seconds" := VInt 3600 ]} fresh_manager in
  r = Ok tt /\
  config m !! "polling_interval_seconds" = Some (VInt 3600) /\
  saved_config m = Some (config m).
Proof. repeat split. Qed.

(** ** The random trigger *)

(** The value of the decision, [sample < probability], is that of the
    double-precision quotients; it is stated below only where those
    quotients are exact. *)

Lemma reset_keeps_config now m :
  config (if (1 <=? (now - last_random_message_time m) / 86400000000)%Z
          then reset_daily_counter now m else m) = config m.
Proof. by destruct (_ <=? _)%Z. Qed.

(** With the defaults (5 a day, every 120 s) the probability is 5/720. *)
Example default_random_probability :
  fst (should_send_random_message 1700000000000000 (1 # 200) fresh_manager) = Ok true /\
  fst (should_send_random_message 1700000000000000 (1 # 100) fresh_manager) = Ok false.
Proof. split; evaluate. Qed.

(** ** The catalog: sent and deleted *)

Lemma first_with_id_lt message_id l r :
  first_with_id message_id l = Some r -> (r < length l)%nat.
Proof.
  revert r. induction l as [|msg rest IH]; intros r; cbn.
  - discriminate.
  - destruct (String.eqb _ _).
    + intros [= <-]. lia.
    + destruct (first_with_id message_id rest) as [k|]; cbn; [|discriminate].
      intros [= <-]. specialize (IH k eq_refl). lia.
Qed.

Lemma first_with_id_alter (f : MessageObject -> MessageObject) message_id l r :
  (forall o, mo_id (f o) = mo_id o) ->
  first_with_id message_id (alter f r l) = first_with_id message_id l.
Proof.
  intros Hid. revert r. induction l as [|msg rest IH]; intros r; [done|].
  destruct r as [|r]; cbn.
  - by rewrite Hid.
  - by rewrite IH.
Qed.

Lemma mark_message_sent_found message_id m r :
  get_message_by_id message_id m = Some r ->
  mark_message_sent message_id m = set_messages (alter (set_sent true) r (messages m)) m.
Proof. intros H. unfold mark_message_sent. by rewrite H. Qed.

Lemma delete_message_found message_id m r :
  get_message_by_id message_id m = Some r ->
  delete_message message_id m = set_messages (alter (set_deleted true) r (messages m)) m.
Proof. intros H. unfold delete_message. by rewrite H. Qed.

Lemma mark_message_sent_absent message_id m :
  get_message_by_id message_id m = None -> mark_message_sent message_id m = m.
Proof. intros H. unfold mark_message_sent. by rewrite H. Qed.

Lemma delete_message_absent message_id m :
  get_message_by_id message_id m = None -> delete_message message_id m = m.
Proof. intros H. unfold delete_message. by rewrite H. Qed.

Lemma get_message_by_id_alter (f : MessageObject -> MessageObject) message_id m r :
  (forall o, mo_id (f o) = mo_id o) ->
  get_message_by_id message_id (set_messages (alter f r (messages m)) m)
  = get_message_by_id message_id m.
Proof. intros Hid. unfold get_message_by_id. cbn. by apply first_with_id_alter. Qed.

(** Claim C1, as the code has it.  [mark_message_sent] sets [sent] on the
    first entity with the id and [delete_message] sets [deleted] on it;
    neither reads the other flag.  After both calls, in either order, the
    entity has both flags set, and the two orders give the same catalog. *)
Theorem sent_and_deleted_are_independent (m : MessageManager) (message_id : string)
    (r : nat) :
  get_message_by_id message_id m = Some r ->
  exists o,
    messages m !! r = Some o /\
    messages (mark_message_sent message_id m) !! r = Some (set_sent true o) /\
    messages (delete_message message_id m) !! r = Some (set_deleted true o) /\
    messages (mark_message_sent message_id (delete_message message_id m)) !! r
      = Some (set_sent true (set_deleted true o)) /\
    mark_message_sent message_id (delete_message message_id m)
      = delete_message message_id (mark_message_sent message_id m).
Proof.
  intros Hget.
  pose proof (first_with_id_lt _ _ _ Hget) as Hlt.
  destruct (lookup_lt_is_Some_2 (messages m) r Hlt) as [o Ho].
  exists o.
  rewrite (delete_message_found _ m r Hget), (mark_message_sent_found _ m r Hget).
  rewrite (mark_message_sent_found _ _ r), (delete_message_found _ _ r)
    by (rewrite get_message_by_id_alter; done).
  cbn. rewrite !list_lookup_alter_eq, Ho. cbn.
  repeat split; try done.
  unfold set_messages. cbn. f_equal.
  rewrite !list_alter_alter_eq. by apply list_alter_ext.
Qed.

Lemma sent_and_deleted_are_independent_witness :
  exists o,
    messages one_entity !! 0%nat = Some o /\
    messages (mark_message_sent "1700000000000" one_entity) !! 0%nat
      = Some (set_sent true o) /\
    messages (delete_message "1700000000000" one_entity) !! 0%nat
      = Some (set_deleted true o) /\
    messages (mark_message_sent "1700000000000"
                (delete_message "1700000000000" one_entity)) !! 0%nat
      = Some (set_sent true (set_deleted true o)) /\
    mark_message_sent "1700000000000" (delete_message "1700000000000" one_entity)
      = delete_message "1700000000000" (mark_message_sent "1700000000000" one_entity).
Proof.
  apply (sent_and_deleted_are_independent one_entity "1700000000000" 0).
  evaluate.
Defined.

(** Claim C1 fails as stated: on a catalog of one entity, deleting and
    then marking sent (or the reverse) leaves both flags set, and the
    second call did change the entity. *)
Lemma sent_and_deleted_both_set :
  let deleted_first := delete_message "1700000000000" one_entity in
  let sent_first := mark_message_sent "1700000000000" one_entity in
  let both := mark_message_sent "1700000000000" deleted_first in
  let both' := delete_message "1700000000000" sent_first in
  (mo_sent <$> messages deleted_first !! 0%nat) = Some false /\
  (mo_deleted <$> messages sent_first !! 0%nat) = Some false /\
  (mo_sent <$> messages both !! 0%nat) = Some true /\
  (mo_deleted <$> messages both !! 0%nat) = Some true /\
  (mo_sent <$> messages both' !! 0%nat) = Some true /\
  (mo_deleted <$> messages both' !! 0%nat) = Some true /\
  both <> deleted_first /\
  both' <> sent_first.
Proof.
  cbn zeta. repeat split; try evaluate.
  - intros H. apply (f_equal (fun m => mo_sent <$> messages m !! 0%nat)) in H.
    vm_compute in H. discriminate H.
  - intros H. apply (f_equal (fun m => mo_deleted <$> messages m !! 0%nat)) in H.
    vm_compute in H. discriminate H.
Qed.

(** The controller's send path does not look at [deleted] either. *)
Example send_after_delete :
  let m := delete_message "1700000000000"
             (set_messages (alter (fun o => snd (select_message 0 (add_generated_message "hi" o)))
                              0%nat (messages one_entity)) one_entity) in
  let bc := {| groupme_interface := fresh_interface; message_manager := m; running := true |} in
  let '(ok, bc') := send_selected_message "1700000000000" true bc in
  ok = true /\
  (mo_sent <$> messages (message_manager bc') !! 0%nat) = Some true /\
  (mo_deleted <$> messages (message_manager bc') !! 0%nat) = Some true.
Proof. repeat split. Qed.

(** ** Entity ids *)

(** Claim C9 at its failing input: two entities created at distinct
    instants of the same millisecond get the same id, so looking the
    second one up by its id finds the first. *)
Theorem same_millisecond_same_id :
  let first := MessageObject_init sample_clock "reply" (Some "a") (Some "hello") (Some "Ann") in
  let second := MessageObject_init later_clock "reply" (Some "b") (Some "bye") (Some "Bob") in
  let m := snd (register second (snd (register first fresh_manager))) in
  ~ (time_time sample_clock == time_time later_clock)%Q /\
  first <> second /\
  mo_id first = mo_id second /\
  messages m !! 1%nat = Some second /\
  get_message_by_id (mo_id second) m = Some 0%nat.
Proof.
  cbn zeta. repeat split; try evaluate.
  - intros H. discriminate H.
  - intros H. apply (f_equal mo_reply_to_id) in H. discriminate H.
Qed.

(** ** [asyncio.gather] *)

Lemma length_fill_slots tasks schedule slots :
  length (fill_slots tasks schedule slots) = length slots.
Proof.
  revert slots. induction schedule as [|i rest IH]; intros slots; cbn; [done|].
  rewrite IH. destruct (tasks !! i); [apply length_insert | done].
Qed.

Lemma fill_slots_lookup tasks schedule slots i :
  length slots = length tasks ->
  fill_slots tasks schedule slots !! i
  = if decide (i ∈ schedule) then
      match tasks !! i with Some a => Some (Some a) | None => slots !! i end
    else slots !! i.
Proof.
  intros Hlen. revert slots Hlen.
  induction schedule as [|j rest IH]; intros slots Hlen; cbn [fill_slots].
  - rewrite decide_False; [done | apply not_elem_of_nil].
  - rewrite IH by (destruct (tasks !! j); [rewrite length_insert|]; done).
    destruct (decide (i = j)) as [->|Hne].
    + rewrite (decide_True (P := j ∈ j :: rest)) by apply list_elem_of_here.
      destruct (tasks !! j) as [a|] eqn:Ha.
      * rewrite list_lookup_insert_eq
          by (rewrite Hlen; by apply lookup_lt_is_Some_1).
        by destruct (decide _).
      * by destruct (decide _).
    + assert (Hslots : (match tasks !! j with
                        | Some a => <[j:=Some a]> slots
                        | None => slots
                        end) !! i = slots !! i).
      { destruct (tasks !! j); [by apply list_lookup_insert_ne | done]. }
      rewrite Hslots.
      destruct (decide (i ∈ rest)) as [Hin|Hnin].
      * rewrite decide_True by (by apply list_elem_of_further). done.
      * rewrite decide_False; [done|].
        intros [?|?]%elem_of_cons; done.
Qed.

(** Whatever [gather] resolves to is the results in the order of the
    awaitables, whatever the schedule was. *)
Lemma gather_launch_order tasks schedule results :
  gather tasks schedule = Some results -> results = tasks.
Proof.
  unfold gather. intros H. apply mapM_Some in H.
  apply list_eq. intros i.
  destruct (decide (i < length tasks)%nat) as [Hlt|Hge].
  - destruct (lookup_lt_is_Some_2 tasks i Hlt) as [a Ha].
    assert (Hslot : is_Some (fill_slots tasks schedule (replicate (length tasks) None) !! i)).
    { apply lookup_lt_is_Some_2. by rewrite length_fill_slots, length_replicate. }
    destruct Hslot as [slot Hslot].
    destruct (Forall2_lookup_l _ _ _ _ _ H Hslot) as (y & Hy & Hsy).
    rewrite Hy, Ha. subst slot.
    rewrite fill_slots_lookup in Hslot by apply length_replicate.
    rewrite Ha in Hslot. destruct (decide _).
    + by inversion Hslot.
    + rewrite lookup_replicate_2 in Hslot by done. by inversion Hslot.
  - rewrite (lookup_ge_None_2 tasks) by lia.
    apply lookup_ge_None_2.
    rewrite <- (Forall2_length _ _ _ H), length_fill_slots, length_replicate. lia.
Qed.

(** Once every awaitable has completed, [gather] resolves. *)
Lemma gather_resolves tasks schedule :
  schedule ≡ₚ seq 0 (length tasks) -> gather tasks schedule = Some tasks.
Proof.
  intros Hperm. unfold gather. apply mapM_Some.
  apply Forall2_same_length_lookup. split.
  - by rewrite length_fill_slots, length_replicate.
  - intros i slot a Hslot Ha.
    rewrite fill_slots_lookup in Hslot by apply length_replicate.
    rewrite Ha in Hslot. rewrite decide_True in Hslot; [by inversion Hslot|].
    rewrite Hperm. apply elem_of_seq. apply lookup_lt_Some in Ha. lia.
Qed.

(** While an awaitable is outstanding, [gather] stays suspended. *)
Example gather_waits_for_all :
  gather [Returned "A"; Returned "B"] [1]%nat = None.
Proof. reflexivity. Qed.

(** ** Recording the results of a batch *)

Lemma record_results_candidates message_type results o :
  mo_generated_messages (record_results message_type results o)
  = mo_generated_messages o ++ (candidate_text message_type <$> results).
Proof.
  unfold record_results. revert o.
  induction results as [|a rest IH]; intros o; cbn [foldl fmap list_fmap].
  - by rewrite app_nil_r.
  - rewrite IH. cbn. by rewrite <- app_assoc.
Qed.

(** Claim C5, as the code has it.  Once all attempts have resolved, the
    candidates are appended in launch order (the order of the awaitables
    given to [gather]), whatever the order of completion. *)
Theorem candidates_in_launch_order (r : nat) (tasks : list attempt) (schedule : list nat)
    (message_type : string) (m : MessageManager) (o : MessageObject) :
  schedule ≡ₚ seq 0 (length tasks) ->
  messages m !! r = Some o ->
  exists m',
    _execute_generation_tasks r tasks schedule message_type m = (Ok tt, m') /\
    (mo_generated_messages <$> messages m' !! r)
    = Some (mo_generated_messages o ++ (candidate_text message_type <$> tasks)).
Proof.
  intros Hperm Ho. unfold _execute_generation_tasks.
  rewrite (gather_resolves _ _ Hperm).
  eexists. split; [reflexivity|]. cbn.
  by rewrite list_lookup_alter_eq, Ho, <- record_results_candidates.
Qed.

Lemma candidates_in_launch_order_witness :
  exists m',
    _execute_generation_tasks 0 [Returned "A"; Failed "x"; Returned "B"] [2; 0; 1]%nat
      "manual" one_entity = (Ok tt, m') /\
    (mo_generated_messages <$> messages m' !! 0%nat)
    = Some ([] ++ (candidate_text "manual" <$> [Returned "A"; Failed "x"; Returned "B"])).
Proof.
  apply (candidates_in_launch_order 0 [Returned "A"; Failed "x"; Returned "B"] [2; 0; 1]%nat
           "manual" one_entity (MessageObject_init sample_clock "manual" None None None)).
  - cbn. apply (Permutation_cons_app [0; 1]%nat [] 2%nat). reflexivity.
  - reflexivity.
Defined.

(** Claim C5 fails as stated: the second attempt completes first, yet
    its text is the second candidate. *)
Lemma candidates_not_in_completion_order :
  let tasks := [Returned "A"; Returned "B"] in
  let schedule := [1; 0]%nat in
  let m' := snd (_execute_generation_tasks 0 tasks schedule "manual" one_entity) in
  completion_order tasks schedule = [Returned "B"; Returned "A"] /\
  (mo_generated_messages <$> messages m' !! 0%nat) = Some ["A"; "B"] /\
  (mo_generated_messages <$> messages m' !! 0%nat)
    <> Some (candidate_text "manual" <$> completion_order tasks schedule).
Proof.
  cbn zeta. repeat split; try evaluate.
  vm_compute. intros H. discriminate H.
Qed.

(** ** A whole batch *)

Lemma make_tasks_width cfg (backend : nat -> attempt) (n : Z) :
  cfg !! "message_generation_tries" = Some (VInt n) ->
  make_tasks cfg backend = Ok (backend <$> seq 0 (Z.to_nat n)).
Proof. intros H. unfold make_tasks, getitem. by rewrite H. Qed.

Lemma run_batch_completes (message_type : string) (message_obj : MessageObject)
    (env : batch_env) (m : MessageManager) (width : Z) :
  config m !! "message_generation_tries" = Some (VInt width) ->
  schedule env ≡ₚ seq 0 (Z.to_nat width) ->
  leaves_candidates (length (messages m)) (interleaved env) ->
  exists m' o,
    run_batch message_type message_obj env m = (Ok (length (messages m)), m') /\
    messages m' !! length (messages m) = Some o /\
    mo_generating o = false /\
    mo_generated_messages o
    = mo_generated_messages message_obj
      ++ (candidate_text message_type <$> (backend env <$> seq 0 (Z.to_nat width))).
Proof.
  intros Hcfg Hperm Hleave.
  unfold run_batch, register, _execute_generation_tasks.
  rewrite (make_tasks_width _ _ width) by exact Hcfg.
  rewrite gather_resolves by (by rewrite length_fmap, length_seq).
  set (m1 := set_messages (messages m ++ [start_generation message_obj]) m).
  destruct (Hleave m1 (start_generation message_obj)) as (o' & Ho' & Hcand).
  { cbn. by rewrite lookup_app_r, Nat.sub_diag. }
  eexists _, (stop_generation (record_results message_type _ o')).
  split; [reflexivity|].
  unfold set_messages; cbn [messages].
  rewrite !list_lookup_alter_eq, Ho'.
  split; [reflexivity|]. split; [reflexivity|].
  change (mo_generated_messages (stop_generation ?x)) with (mo_generated_messages x).
  by rewrite record_results_candidates, Hcand.
Qed.

(** Claim C2.  For a width of at least 1, whatever each attempt yields
    and in whatever order they complete, the batch returns, the entity is
    no longer generating, it has exactly [width] candidates, and the
    candidate of a failed attempt is the marker
    ["Error generating random: <error>"]. *)
Theorem batch_yields_width_candidates (env : batch_env) (m : MessageManager) (width : Z) :
  (1 <= width)%Z ->
  config m !! "message_generation_tries" = Some (VInt width) ->
  schedule env ≡ₚ seq 0 (Z.to_nat width) ->
  leaves_candidates (length (messages m)) (interleaved env) ->
  exists r m' o,
    generate_random_message env m = (Ok r, m') /\
    messages m' !! r = Some o /\
    mo_generating o = false /\
    Z.of_nat (length (mo_generated_messages o)) = width /\
    forall i, (i < Z.to_nat width)%nat ->
      mo_generated_messages o !! i
      = Some (match backend env i with
              | Returned text => text
              | Failed err => "Error generating random: " +:+ err
              end).
Proof.
  intros Hwidth Hcfg Hperm Hleave.
  destruct (run_batch_completes "random"
              (MessageObject_init (created env) "random" None None None)
              env m width Hcfg Hperm Hleave) as (m' & o & Hrun & Ho & Hgen & Hcand).
  unfold generate_random_message. rewrite Hrun.
  eexists _, _, o. split; [reflexivity|].
  cbn. split; [exact Ho|]. split; [exact Hgen|].
  rewrite Hcand. cbn [MessageObject_init mo_generated_messages app].
  split.
  - rewrite !length_fmap, length_seq. lia.
  - intros i Hi. rewrite !list_lookup_fmap, lookup_seq_lt by done. cbn.
    by destruct (backend env i).
Qed.

(** What may run while a batch is suspended. *)

Lemma leaves_candidates_id r : leaves_candidates r (fun m => m).
Proof. intros m o Ho. eauto. Qed.

Lemma leaves_candidates_compose r f g :
  leaves_candidates r f -> leaves_candidates r g -> leaves_candidates r (g ∘ f).
Proof.
  intros Hf Hg m o Ho.
  destruct (Hf m o Ho) as (o1 & Ho1 & H1).
  destruct (Hg (f m) o1 Ho1) as (o2 & Ho2 & H2).
  exists o2. split; [exact Ho2 | congruence].
Qed.

Lemma leaves_candidates_alter r r' (f : MessageObject -> MessageObject) :
  (forall o, mo_generated_messages (f o) = mo_generated_messages o) ->
  leaves_candidates r (fun m => set_messages (alter f r' (messages m)) m).
Proof.
  intros Hf m o Ho. cbn.
  destruct (decide (r' = r)) as [->|Hne].
  - exists (f o). by rewrite list_lookup_alter_eq, Ho.
  - exists o. by rewrite list_lookup_alter_ne.
Qed.

Lemma leaves_candidates_mark_message_sent r message_id :
  leaves_candidates r (mark_message_sent message_id).
Proof.
  intros m o Ho. unfold mark_message_sent.
  destruct (get_message_by_id message_id m) as [r'|]; [|eauto].
  by apply (leaves_candidates_alter r r' (set_sent true)).
Qed.

Lemma leaves_candidates_delete_message r message_id :
  leaves_candidates r (delete_message message_id).
Proof.
  intros m o Ho. unfold delete_message.
  destruct (get_message_by_id message_id m) as [r'|]; [|eauto].
  by apply (leaves_candidates_alter r r' (set_deleted true)).
Qed.

(** Another batch, from its start to its end, only touches its own entity. *)
Lemma leaves_candidates_run_batch r message_type message_obj env :
  leaves_candidates r (interleaved env) ->
  leaves_candidates r (fun m => snd (run_batch message_type message_obj env m)).
Proof.
  intros Hleave m o Ho.
  assert (Hlt : (r < length (messages m))%nat) by (by eapply lookup_lt_Some).
  unfold run_batch, register.
  set (m1 := set_messages (messages m ++ [start_generation message_obj]) m).
  assert (Ho1 : messages m1 !! r = Some o) by (cbn; by apply lookup_app_l_Some).
  destruct (make_tasks (config m1) (backend env)) as [tasks|e|]; cbn [snd]; [|eauto..].
  destruct (Hleave m1 o Ho1) as (o' & Ho' & Hcand).
  unfold _execute_generation_tasks.
  destruct (gather tasks (schedule env)) as [results|]; cbn [snd]; [|eauto].
  exists o'. split; [|exact Hcand].
  unfold set_messages; cbn [messages].
  rewrite !list_lookup_alter_ne by lia. exact Ho'.
Qed.

Lemma batch_yields_width_candidates_witness :
  exists r m' o,
    generate_random_message sample_batch fresh_manager = (Ok r, m') /\
    messages m' !! r = Some o /\
    mo_generating o = false /\
    Z.of_nat (length (mo_generated_messages o)) = 3%Z /\
    forall i, (i < Z.to_nat 3)%nat ->
      mo_generated_messages o !! i
      = Some (match backend sample_batch i with
              | Returned text => text
              | Failed err => "Error generating random: " +:+ err
              end).
Proof.
  apply (batch_yields_width_candidates sample_batch fresh_manager 3).
  - lia.
  - reflexivity.
  - cbn. apply (Permutation_cons_app [0; 1]%nat [] 2%nat). reflexivity.
  - apply leaves_candidates_delete_message.
Defined.

(** The scenario of the specification: two texts and one failure. *)
Example two_texts_one_failure :
  let '(r, m) := generate_random_message sample_batch fresh_manager in
  r = Ok 0%nat /\
  (mo_generated_messages <$> messages m !! 0%nat)
  = Some ["A"; "B"; "Error generating random: backend unavailable"] /\
  (mo_generating <$> messages m !! 0%nat) = Some false /\
  (mo_selected_message <$> messages m !! 0%nat) = Some None /\
  messages_per_day m = 1%Z.
Proof. repeat split. Qed.

(** ** The reply trigger *)

Lemma reply_probability_keller cfg text likes chance_v chance minimum_v minimum :
  references_keller text = true ->
  cfg !! "reply_chance_per_like" = Some chance_v ->
  as_number chance_v = Some chance ->
  cfg !! "minimum_reply_chance" = Some minimum_v ->
  as_number minimum_v = Some minimum ->
  (0 <= chance)%Q -> (0 <= likes)%Z ->
  exists p, reply_probability cfg text likes = Ok p /\ (1 <= p)%Q.
Proof.
  intros Hk Hc Hcn Hm Hmn Hchance Hlikes.
  unfold reply_probability, getitem, number.
  rewrite Hc, Hm, Hk. cbn [Py.bind]. rewrite Hcn, Hmn. cbn [Py.bind].
  eexists. split; [reflexivity|].
  assert (H1 : (1 <= py_min (chance * inject_Z likes) 1 + 1)%Q).
  { rewrite <- (Qplus_0_l 1) at 1. apply Qplus_le_l. apply py_min_nonneg.
    apply Qmult_le_0_compat; [exact Hchance|].
    change 0%Q with (inject_Z 0). by rewrite <- Zle_Qle. }
  destruct (Qlt_bool _ minimum) eqn:Hlt; [|exact H1].
  apply Qlt_bool_iff in Hlt. apply Qlt_le_weak in Hlt.
  by eapply Qle_trans.
Qed.

(** Claim C4, as the code has it.  For a text containing ["Keller"] or
    ["keller"], a non-negative slope and a non-negative likes count, 1 is
    added to the probability, which is then at least 1; for every sample
    of [0,1) the reply is not skipped and the batch is run. *)
Theorem keller_reference_always_triggers (reply_to_id text : string) (likes : Z)
    (username : option string) (sample : Q) (env : batch_env) (m : MessageManager)
    (chance_v minimum_v : value) (chance minimum : Q) :
  references_keller text = true ->
  config m !! "reply_chance_per_like" = Some chance_v ->
  as_number chance_v = Some chance ->
  config m !! "minimum_reply_chance" = Some minimum_v ->
  as_number minimum_v = Some minimum ->
  (0 <= chance)%Q -> (0 <= likes)%Z -> (sample < 1)%Q ->
  (exists p, reply_probability (config m) text likes = Ok p /\ (1 <= p)%Q) /\
  fst (generate_reply_message reply_to_id text likes username sample env m) <> Ok None /\
  snd (generate_reply_message reply_to_id text likes username sample env m)
  = snd (run_batch "reply"
           (MessageObject_init (created env) "reply" (Some reply_to_id) (Some text) username)
           env m).
Proof.
  intros Hk Hc Hcn Hm Hmn Hchance Hlikes Hsample.
  destruct (reply_probability_keller (config m) text likes chance_v chance minimum_v minimum)
    as (p & Hp & Hge); try done.
  split; [eauto|].
  unfold generate_reply_message. rewrite Hp.
  assert (Hskip : Qlt_bool p sample = false).
  { apply Qlt_bool_false_iff. apply Qlt_le_weak. by eapply Qlt_le_trans. }
  rewrite Hskip.
  destruct (run_batch _ _ _ _) as [[r|e|] m2]; cbn; split; done.
Qed.

Lemma keller_reference_always_triggers_witness :
  (exists p, reply_probability (config fresh_manager) "where is Keller" 0 = Ok p /\
             (1 <= p)%Q) /\
  fst (generate_reply_message "7" "where is Keller" 0 (Some "Ann") (999 # 1000)%Q
         quiet_batch fresh_manager) <> Ok None /\
  snd (generate_reply_message "7" "where is Keller" 0 (Some "Ann") (999 # 1000)%Q
         quiet_batch fresh_manager)
  = snd (run_batch "reply"
           (MessageObject_init (created quiet_batch) "reply" (Some "7")
              (Some "where is Keller") (Some "Ann"))
           quiet_batch fresh_manager).
Proof.
  apply (keller_reference_always_triggers "7" "where is Keller" 0 (Some "Ann") (999 # 1000)%Q
           quiet_batch fresh_manager (VFloat (3 # 10)) (VFloat (1 # 100))
           (3 # 10)%Q (1 # 100)%Q).
  - reflexivity.
  - reflexivity.
  - reflexivity.
  - reflexivity.
  - reflexivity.
  - discriminate.
  - lia.
  - reflexivity.
Defined.

(** Claim C4 fails as stated: the keyword in capitals is not recognised,
    the probability stays at the floor and the reply is skipped; with
    the keyword recognised and no likes the probability is 1, not above;
    and since 1 is added rather than the probability being set, a
    negative slope in the configuration leaves a recognised keyword
    below 1 and the reply skipped. *)
Lemma uppercase_keyword_not_forced :
  let negative_slope :=
    set_config (<[ "reply_chance_per_like" := VInt (-1) ]> default_config) fresh_manager in
  mentions_keyword_any_case "KELLER is late" = true /\
  references_keller "KELLER is late" = false /\
  reply_probability (config fresh_manager) "KELLER is late" 0 = Ok (1 # 100)%Q /\
  generate_reply_message "7" "KELLER is late" 0 (Some "Ann") (1 # 2)%Q
    quiet_batch fresh_manager = (Ok None, fresh_manager) /\
  (exists p, reply_probability (config fresh_manager) "keller is late" 0 = Ok p /\
             (p == 1)%Q) /\
  fst (update_config {[ "reply_chance_per_like" := VInt (-1) ]} fresh_manager) = Ok tt /\
  generate_reply_message "7" "keller is late" 5 (Some "Ann") (1 # 2)%Q
    quiet_batch negative_slope = (Ok None, negative_slope).
Proof.
  cbn zeta. repeat split; try evaluate.
  eexists. split; [evaluate | reflexivity].
Qed.

(** ** Polling the platform *)

Lemma collect_new_newer g group_id msgs info :
  info ∈ collect_new g group_id msgs -> (last_message_time g < mi_created_at info)%Z.
Proof.
  induction msgs as [|msg rest IH]; cbn [collect_new].
  - intros H. by apply elem_of_nil in H.
  - destruct (last_message_time g <? rm_created_at msg)%Z eqn:Hnew; [|exact IH].
    destruct (negb _); [|exact IH].
    intros [-> | Hin]%elem_of_cons; [|by apply IH].
    cbn. by apply Z.ltb_lt.
Qed.

Lemma max_created_at_bounds first rest :
  (mi_created_at first <= max_created_at first rest)%Z /\
  (forall info, info ∈ rest -> (mi_created_at info <= max_created_at first rest)%Z).
Proof.
  unfold max_created_at.
  generalize (mi_created_at first) as acc.
  induction rest as [|x rest IH]; intros acc; cbn [foldl].
  - split; [lia|]. intros info H. by apply elem_of_nil in H.
  - destruct (IH (Z.max acc (mi_created_at x))) as [Hacc Hrest]. split; [lia|].
    intros info [-> | Hin]%elem_of_cons; [lia | by apply Hrest].
Qed.

(** The cursor never moves back. *)
Lemma poll_cursor_monotone resp g :
  (last_message_time g <= last_message_time (snd (poll_new_messages resp g)))%Z.
Proof.
  unfold poll_new_messages.
  destruct (bot_group_id g) as [[|c s]|]; cbn [snd]; try lia.
  destruct (String.eqb _ _); cbn [snd]; [lia|].
  destruct resp as [err|msgs]; cbn [snd]; [lia|].
  destruct (collect_new g (String c s) msgs) as [|first rest] eqn:Hnew; [lia|].
  cbn. pose proof (max_created_at_bounds first rest) as [Hfirst _].
  assert (first ∈ collect_new g (String c s) msgs) as Hin
    by (rewrite Hnew; apply list_elem_of_here).
  apply collect_new_newer in Hin. lia.
Qed.

(** What a poll hands back is newer than the cursor it started from. *)
Lemma poll_returns_newer resp g new_messages info :
  fst (poll_new_messages resp g) = Ok new_messages ->
  info ∈ new_messages ->
  (last_message_time g < mi_created_at info)%Z.
Proof.
  unfold poll_new_messages.
  destruct (bot_group_id g) as [[|c s]|]; cbn [fst]; try discriminate.
  destruct (String.eqb _ _); cbn [fst]; [discriminate|].
  destruct resp as [err|msgs]; cbn [fst]; [discriminate|].
  intros [= <-]. destruct (_ =? _)%Z.
  - intros H. by apply elem_of_nil in H.
  - apply collect_new_newer.
Qed.

Lemma poll_repeatedly_newer resps g info :
  info ∈ fst (poll_repeatedly resps g) ->
  (last_message_time g < mi_created_at info)%Z.
Proof.
  revert g. induction resps as [|resp rest IH]; intros g; cbn [poll_repeatedly].
  - intros H. by apply elem_of_nil in H.
  - pose proof (poll_cursor_monotone resp g) as Hmono.
    pose proof (poll_returns_newer resp g) as Hnewer.
    destruct (poll_new_messages resp g) as [polled g1].
    specialize (IH g1).
    destruct (poll_repeatedly rest g1) as [later g2]. cbn [fst snd] in *.
    assert (Hlater : info ∈ later -> (last_message_time g < mi_created_at info)%Z).
    { intros Hin. specialize (IH Hin). lia. }
    destruct polled as [new_messages|e|]; try exact Hlater.
    intros [Hin | Hin]%elem_of_app; [|by apply Hlater].
    by apply (Hnewer new_messages).
Qed.

Section FirstRun.

Variable g : GroupMeInterface.
Variable group_id : string.
Hypothesis interface_ready : ready g group_id.
Hypothesis cursor_at_zero : last_message_time g = 0%Z.

Lemma poll_new_messages_response msgs :
  poll_new_messages (Response msgs) g
  = (Ok [],
     match collect_new g group_id msgs with
     | [] => g
     | first :: rest => set_last_message_time (max_created_at first rest) g
     end).
Proof.
  destruct interface_ready as (Hgid & Hne & Htok).
  unfold poll_new_messages. rewrite Hgid, cursor_at_zero.
  destruct group_id as [|c rest]; [done|].
  destruct (String.eqb_spec (access_token g) ""); [done|]. reflexivity.
Qed.

(** Claim C6.  While the cursor is at its initial value, the poll step
    returns the empty list whatever messages the platform answers
    with, and the cycle launches no reply task whatever the platform
    answers (the only task it can launch is the random one, which does
    not depend on the answer). *)
Theorem first_poll_returns_nothing (msgs : list RawMessage) :
  fst (poll_new_messages (Response msgs) g) = Ok [] /\
  forall (bc : BotController) (env : cycle_env) (t : task),
    groupme_interface bc = g ->
    CreateTask t ∈ fst (_process_polling_cycle env bc) ->
    t = RandomTask.
Proof.
  split; [by rewrite poll_new_messages_response|].
  intros bc [resp now sample] t Hg. unfold _process_polling_cycle. cbn [response].
  rewrite Hg. destruct resp as [err|answered].
  - destruct (poll_new_messages _ g) as [[new_messages|e|] g'] eqn:Hpoll; cbn [fst].
    + exfalso. revert Hpoll. unfold poll_new_messages.
      destruct (bot_group_id g) as [[|c s]|]; try discriminate.
      destruct (String.eqb _ _); discriminate.
    + intros Hin. apply list_elem_of_singleton in Hin. discriminate.
    + intros Hin. apply list_elem_of_singleton in Hin. discriminate.
  - rewrite poll_new_messages_response. cbn [fmap list_fmap].
    destruct (should_send_random_message _ _ _) as [[[]|e|] m']; cbn [fst app].
    + intros Hin. apply list_elem_of_singleton in Hin. by injection Hin.
    + intros Hin. by apply elem_of_nil in Hin.
    + intros Hin. apply list_elem_of_singleton in Hin. discriminate.
    + intros Hin. apply list_elem_of_singleton in Hin. discriminate.
Qed.

(** Claim C10.  The cursor moves only when the poll finds new messages
    of other users.  If the first poll finds none, the state is
    unchanged and the next poll is a first run again: it returns the
    empty list and moves the cursor past the messages that arrived, so
    that no later poll ever hands any of them back. *)
Theorem first_run_repeats_until_cursor_moves (msgs1 msgs2 : list RawMessage) :
  collect_new g group_id msgs1 = [] ->
  collect_new g group_id msgs2 <> [] ->
  exists g2,
    poll_new_messages (Response msgs1) g = (Ok [], g) /\
    poll_new_messages (Response msgs2) g = (Ok [], g2) /\
    (0 < last_message_time g2)%Z /\
    forall missed, missed ∈ collect_new g group_id msgs2 ->
      (mi_created_at missed <= last_message_time g2)%Z /\
      forall later, missed ∉ fst (poll_repeatedly later g2).
Proof.
  intros Hnone Hsome.
  rewrite !poll_new_messages_response, Hnone.
  destruct (collect_new g group_id msgs2) as [|first rest] eqn:Hnew; [done|].
  eexists. split; [reflexivity|]. split; [reflexivity|].
  cbn [last_message_time set_last_message_time].
  pose proof (max_created_at_bounds first rest) as [Hhead Htail].
  assert (Hpos : (0 < mi_created_at first)%Z).
  { rewrite <- cursor_at_zero. apply (collect_new_newer g group_id msgs2).
    rewrite Hnew. apply list_elem_of_here. }
  split; [lia|].
  intros missed Hin.
  assert (Hle : (mi_created_at missed <= max_created_at first rest)%Z).
  { apply elem_of_cons in Hin as [-> | Hin]; [exact Hhead | by apply Htail]. }
  split; [exact Hle|].
  intros later Hback. apply poll_repeatedly_newer in Hback. cbn in Hback. lia.
Qed.

End FirstRun.

Lemma fresh_interface_ready : ready fresh_interface "g1".
Proof. repeat split; discriminate. Qed.

Lemma first_poll_returns_nothing_witness :
  fst (poll_new_messages (Response [foreign_message; own_message]) fresh_interface) = Ok [] /\
  forall (bc : BotController) (env : cycle_env) (t : task),
    groupme_interface bc = fresh_interface ->
    CreateTask t ∈ fst (_process_polling_cycle env bc) ->
    t = RandomTask.
Proof.
  apply (first_poll_returns_nothing fresh_interface "g1").
  - exact fresh_interface_ready.
  - reflexivity.
Defined.

Lemma first_run_repeats_until_cursor_moves_witness :
  exists g2,
    poll_new_messages (Response [own_message]) fresh_interface = (Ok [], fresh_interface) /\
    poll_new_messages (Response [foreign_message; own_message]) fresh_interface = (Ok [], g2) /\
    (0 < last_message_time g2)%Z /\
    forall missed, missed ∈ collect_new fresh_interface "g1" [foreign_message; own_message] ->
      (mi_created_at missed <= last_message_time g2)%Z /\
      forall later, missed ∉ fst (poll_repeatedly later g2).
Proof.
  apply (first_run_repeats_until_cursor_moves fresh_interface "g1").
  - exact fresh_interface_ready.
  - reflexivity.
  - reflexivity.
  - discriminate.
Defined.

(** The same message is handed back once the cursor has left zero. *)
Example second_run_returns_new_messages :
  let g1 := snd (poll_new_messages (Response [foreign_message]) fresh_interface) in
  let later := mkRawMessage "12" "anyone there" "u8" "Bob" 300 [] in
  last_message_time g1 = 200%Z /\
  fst (poll_new_messages (Response [later; foreign_message]) g1)
  = Ok [message_info "g1" later].
Proof. split; reflexivity. Qed.

(** ** The polling loop *)

Lemma process_polling_cycle_running env bc :
  running (snd (_process_polling_cycle env bc)) = running bc.
Proof.
  unfold _process_polling_cycle.
  destruct (poll_new_messages _ _) as [[new_messages|e|] g']; [|done..].
  destruct (should_send_random_message _ _ _) as [[[]|e|] m']; done.
Qed.

(** An error in the cycle is logged by the cycle itself, after the reply
    tasks already handed to the event loop; nothing is raised further. *)
Lemma process_polling_cycle_error env bc :
  cycle_raises env bc = true ->
  exists spawned,
    fst (_process_polling_cycle env bc)
    = spawned ++ [LogError "Error processing polling cycle"] /\
    Forall is_create_task spawned.
Proof.
  unfold cycle_raises, _process_polling_cycle.
  destruct (poll_new_messages _ _) as [[new_messages|e|] g']; cbn [fst]; [| |done].
  - destruct (should_send_random_message _ _ _) as [[b|e|] m']; cbn [fst]; try done.
    intros _. eexists. split; [reflexivity|].
    apply Forall_fmap, Forall_true. intros info. by eexists.
  - intros _. exists []. split; [reflexivity | constructor].
Qed.

(** With a numeric interval the iteration is the cycle followed by the
    sleep of that interval. *)
Lemma loop_iteration_numeric env last bc q :
  number (Py.get (config (message_manager bc)) "polling_interval_seconds" (VInt 120)) = Ok q ->
  exists last',
    loop_iteration env last bc
    = (fst (_process_polling_cycle env bc) ++ [Sleep q], last',
       snd (_process_polling_cycle env bc)).
Proof.
  intros Hnum. unfold loop_iteration. rewrite Hnum.
  destruct (interval_changed _ _); destruct (_process_polling_cycle env bc); by eexists.
Qed.

(** Claim C3, as the code has it.  An error raised by the fetch or by the
    random trigger is caught and logged inside the cycle; the loop then
    sleeps the configured polling interval, not a fixed 60 seconds, and
    goes on with the remaining iterations. *)
Theorem cycle_error_sleeps_configured_interval (env : cycle_env) (rest : list cycle_env)
    (last : option value) (bc : BotController) (q : Q) :
  running bc = true ->
  number (Py.get (config (message_manager bc)) "polling_interval_seconds" (VInt 120)) = Ok q ->
  cycle_raises env bc = true ->
  exists spawned last' bc',
    Forall is_create_task spawned /\
    loop_iteration env last bc
    = (spawned ++ [LogError "Error processing polling cycle"; Sleep q], last', bc') /\
    running bc' = true /\
    polling_iterations (env :: rest) last bc
    = ((spawned ++ [LogError "Error processing polling cycle"; Sleep q])
         ++ fst (polling_iterations rest last' bc'),
       snd (polling_iterations rest last' bc')).
Proof.
  intros Hrun Hnum Hraise.
  destruct (loop_iteration_numeric env last bc q Hnum) as (last' & Hiter).
  destruct (process_polling_cycle_error env bc Hraise) as (spawned & Hevents & Hspawned).
  exists spawned, last', (snd (_process_polling_cycle env bc)).
  split; [exact Hspawned|].
  rewrite Hevents, <- app_assoc in Hiter. cbn [app] in Hiter.
  split; [exact Hiter|].
  split; [by rewrite process_polling_cycle_running|].
  cbn [polling_iterations]. rewrite Hrun, Hiter.
  by destruct (polling_iterations rest last' _).
Qed.

Lemma cycle_error_sleeps_configured_interval_witness :
  exists spawned last' bc',
    Forall is_create_task spawned /\
    loop_iteration failing_cycle None fresh_controller
    = (spawned ++ [LogError "Error processing polling cycle"; Sleep (inject_Z 120)],
       last', bc') /\
    running bc' = true /\
    polling_iterations (failing_cycle :: [failing_cycle]) None fresh_controller
    = ((spawned ++ [LogError "Error processing polling cycle"; Sleep (inject_Z 120)])
         ++ fst (polling_iterations [failing_cycle] last' bc'),
       snd (polling_iterations [failing_cycle] last' bc')).
Proof.
  apply (cycle_error_sleeps_configured_interval failing_cycle [failing_cycle] None
           fresh_controller (inject_Z 120)).
  - reflexivity.
  - reflexivity.
  - reflexivity.
Defined.

(** Claim C3 fails as stated: with the default interval of 120 seconds,
    two cycles in which the platform request fails are each followed by
    a sleep of 120 seconds; no sleep of 60 seconds occurs. *)
Lemma platform_failure_sleeps_polling_interval :
  fst (_polling_loop [failing_cycle; failing_cycle] fresh_controller)
  = [LogError "Error processing polling cycle"; Sleep (inject_Z 120);
     LogError "Error processing polling cycle"; Sleep (inject_Z 120)] /\
  Sleep 60%Q ∉ fst (_polling_loop [failing_cycle; failing_cycle] fresh_controller).
Proof.
  assert (H : fst (_polling_loop [failing_cycle; failing_cycle] fresh_controller)
              = [LogError "Error processing polling cycle"; Sleep (inject_Z 120);
                 LogError "Error processing polling cycle"; Sleep (inject_Z 120)])
    by evaluate.
  split; [exact H|]. rewrite H.
  intros Hin. repeat (apply elem_of_cons in Hin as [Hin | Hin]; [discriminate Hin|]).
  by apply elem_of_nil in Hin.
Qed.

(** Under a platform failure that persists, every iteration logs and
    sleeps the configured interval, and the controller is left as it was. *)
Lemma persistent_platform_failure (envs : list cycle_env) (last : option value)
    (bc : BotController) (q : Q) :
  running bc = true ->
  number (Py.get (config (message_manager bc)) "polling_interval_seconds" (VInt 120)) = Ok q ->
  Forall (fun env => exists err, response env = RequestException err) envs ->
  polling_iterations envs last bc
  = (envs ≫= (fun _ => [LogError "Error processing polling cycle"; Sleep q]), bc).
Proof.
  intros Hrun Hnum Hall. revert last.
  induction Hall as [|env rest [err Herr] _ IH]; intros last; [done|].
  cbn [polling_iterations]. rewrite Hrun.
  destruct (loop_iteration_numeric env last bc q Hnum) as (last' & ->).
  assert (Hcycle : _process_polling_cycle env bc
                   = ([LogError "Error processing polling cycle"], bc)).
  { unfold _process_polling_cycle, poll_new_messages. rewrite Herr.
    destruct bc as [g m run]. cbn.
    destruct (bot_group_id g) as [[|c s]|]; try done.
    by destruct (String.eqb _ _). }
  rewrite Hcycle. cbn [fst snd]. by rewrite IH.
Qed.

(** The 60-second sleep is what follows an error of the loop body
    itself: here a pass entered with an interval that is not a number.
    A coroutine started on such an interval does not reach the loop. *)
Example recovery_sleep_on_bad_interval :
  let m := set_config (<[ "polling_interval_seconds" := VStr "soon" ]> default_config)
             fresh_manager in
  let bc := {| groupme_interface := fresh_interface; message_manager := m; running := true |} in
  fst (polling_iterations [failing_cycle] None bc)
  = [LogError "Error in polling loop"; Sleep 60%Q] /\
  _polling_loop [failing_cycle] bc = ([CoroutineRaised TypeError], bc).
Proof. split; reflexivity. Qed.

(** Without the key [polling_interval_seconds] the loop and the random
    trigger fall back on 120 seconds: the sleep is 120 s and, at 720
    messages a day, every cycle triggers. *)
Example interval_defaults_to_120 :
  let m := set_config (<[ "random_messages_per_day" := VInt 720 ]>
                         (delete "polling_interval_seconds" default_config))
             fresh_manager in
  let bc := {| groupme_interface := fresh_interface; message_manager := m; running := true |} in
  fst (_polling_loop [failing_cycle] bc)
  = [LogError "Error processing polling cycle"; Sleep (inject_Z 120)] /\
  fst (should_send_random_message 0 (999 # 1000) m) = Ok true.
Proof. split; evaluate. Qed.

(* ===================================================================== *)
(** * Further properties                                                  *)
(* ===================================================================== *)

(** ** Facts about the concrete inputs *)

Lemma warm_interface_ready : ready warm_interface "g1".
Proof. repeat split; discriminate. Qed.

Lemma default_config_interval_valid : interval_valid default_config.
Proof. exists (inject_Z 120). repeat split; discriminate. Qed.

Lemma first_with_id_spec message_id l :
  match first_with_id message_id l with
  | Some r =>
      (exists o, l !! r = Some o /\ mo_id o = message_id) /\
      (forall r' o', (r' < r)%nat -> l !! r' = Some o' -> mo_id o' <> message_id)
  | None => forall o, o ∈ l -> mo_id o <> message_id
  end.
Proof.
  induction l as [|msg rest IH]; cbn [first_with_id].
  - intros o H. by apply elem_of_nil in H.
  - destruct (String.eqb_spec (mo_id msg) message_id) as [Heq|Hne].
    + split; [by exists msg | intros r' o' Hlt; lia].
    + destruct (first_with_id message_id rest) as [r|]; cbn.
      * destruct IH as [Hfound Hearlier]. split; [exact Hfound|].
        intros [|r'] o' Hlt Hlook; cbn in Hlook.
        -- by injection Hlook as <-.
        -- apply (Hearlier r' o'); [lia | exact Hlook].
      * intros o [-> | Hin]%elem_of_cons; [exact Hne | by apply IH].
Qed.

(** Extra X1.  [get_message_by_id] returns the position of the first
    entity of the catalog with the id, and [None] exactly when no entity
    has it. *)
Theorem get_message_by_id_first_match (message_id : string) (m : MessageManager) :
  match get_message_by_id message_id m with
  | Some r =>
      (exists o, messages m !! r = Some o /\ mo_id o = message_id) /\
      (forall r' o', (r' < r)%nat -> messages m !! r' = Some o' -> mo_id o' <> message_id)
  | None => forall o, o ∈ messages m -> mo_id o <> message_id
  end.
Proof. apply first_with_id_spec. Qed.

Lemma first_with_id_app message_id l1 l2 :
  first_with_id message_id (l1 ++ l2)
  = match first_with_id message_id l1 with
    | Some r => Some r
    | None => (fun r => length l1 + r)%nat <$> first_with_id message_id l2
    end.
Proof.
  induction l1 as [|msg rest IH]; cbn [app first_with_id length].
  - by destruct (first_with_id message_id l2).
  - destruct (String.eqb _ _); [done|]. rewrite IH.
    destruct (first_with_id message_id rest); [done|].
    by destruct (first_with_id message_id l2).
Qed.

(** Extra X2.  After an entity is appended to the catalog, looking its id
    up succeeds; it finds the new entity when the id was unused and the
    older entity with the same id otherwise. *)
Theorem registered_entity_is_found (o : MessageObject) (m : MessageManager) :
  get_message_by_id (mo_id o) (snd (register o m))
  = Some (match get_message_by_id (mo_id o) m with
          | Some earlier => earlier
          | None => fst (register o m)
          end).
Proof.
  unfold get_message_by_id, register. cbn [fst snd messages set_messages].
  rewrite first_with_id_app.
  destruct (first_with_id (mo_id o) (messages m)); [done|].
  cbn. rewrite String.eqb_refl. cbn. f_equal. lia.
Qed.

Lemma filter_alter_drops {A} (P : A -> bool) (f : A -> A) (l : list A) r x :
  l !! r = Some x -> P x = true -> P (f x) = false ->
  (length (List.filter P (alter f r l)) + 1 = length (List.filter P l))%nat.
Proof.
  revert r. induction l as [|y rest IH]; intros r Hlook Hx Hfx; [done|].
  destruct r as [|r]; cbn in Hlook |- *.
  - injection Hlook as ->. rewrite Hx, Hfx. cbn. lia.
  - specialize (IH r Hlook Hx Hfx). destruct (P y); cbn; lia.
Qed.

Lemma filter_alter_same {A} (P : A -> bool) (f : A -> A) (l : list A) r :
  (forall x, l !! r = Some x -> P (f x) = P x) ->
  length (List.filter P (alter f r l)) = length (List.filter P l).
Proof.
  revert r. induction l as [|y rest IH]; intros r Hsame; [done|].
  destruct r as [|r]; cbn.
  - rewrite (Hsame y eq_refl). destruct (P y); reflexivity.
  - assert (IH' := IH r (fun x Hx => Hsame x Hx)).
    destruct (P y); cbn; lia.
Qed.

(** Extra X3.  Marking sent or deleting an entity found by id takes
    exactly one entity off the pending list when that entity was
    pending, and none when it was already sent or deleted. *)
Theorem handled_entity_leaves_pending (message_id : string) (m : MessageManager)
    (r : nat) (o : MessageObject) :
  get_message_by_id message_id m = Some r ->
  messages m !! r = Some o ->
  (if mo_sent o || mo_deleted o
   then length (get_pending_messages (mark_message_sent message_id m))
        = length (get_pending_messages m) /\
        length (get_pending_messages (delete_message message_id m))
        = length (get_pending_messages m)
   else (length (get_pending_messages (mark_message_sent message_id m)) + 1
         = length (get_pending_messages m))%nat /\
        (length (get_pending_messages (delete_message message_id m)) + 1
         = length (get_pending_messages m))%nat).
Proof.
  intros Hget Ho.
  rewrite (mark_message_sent_found _ _ _ Hget), (delete_message_found _ _ _ Hget).
  unfold get_pending_messages. cbn [messages set_messages].
  destruct (mo_sent o || mo_deleted o) eqn:Hflags.
  - split; apply filter_alter_same; intros x Hx; rewrite Ho in Hx; injection Hx as <-;
      cbn [set_sent set_deleted mo_sent mo_deleted];
      apply orb_true_iff in Hflags as [Hf | Hf]; rewrite Hf; cbn;
      rewrite ?andb_false_r; reflexivity.
  - apply orb_false_iff in Hflags as [Hs Hd].
    split; apply (filter_alter_drops _ _ _ _ o Ho);
      cbn [set_sent set_deleted mo_sent mo_deleted]; rewrite ?Hs, ?Hd; cbn;
      rewrite ?andb_false_r; reflexivity.
Qed.

Lemma handled_entity_leaves_pending_witness :
  (length (get_pending_messages (mark_message_sent "1700000000000" one_entity)) + 1
   = length (get_pending_messages one_entity))%nat /\
  (length (get_pending_messages (delete_message "1700000000000" one_entity)) + 1
   = length (get_pending_messages one_entity))%nat.
Proof.
  apply (handled_entity_leaves_pending "1700000000000" one_entity 0
           (MessageObject_init sample_clock "manual" None None None)).
  - reflexivity.
  - reflexivity.
Defined.

Lemma set_messages_same m : set_messages (messages m) m = m.
Proof. by destruct m. Qed.

(** Extra X4.  [select_message_option] succeeds exactly when the id is
    known and the index is within the candidates of the entity found
    (negative indices are refused); it then stores that candidate as the
    selection of that entity only; otherwise the controller is
    unchanged. *)
Theorem select_message_option_spec (message_id : string) (option_index : Z)
    (bc : BotController) :
  let '(ok, bc') := select_message_option message_id option_index bc in
  if ok then
    exists r o text,
      get_message_by_id message_id (message_manager bc) = Some r /\
      messages (message_manager bc) !! r = Some o /\
      (0 <= option_index < Z.of_nat (length (mo_generated_messages o)))%Z /\
      mo_generated_messages o !! Z.to_nat option_index = Some text /\
      messages (message_manager bc')
      = <[r := set_selected_message (Some text) o]> (messages (message_manager bc))
  else
    bc' = bc /\
    forall r o,
      get_message_by_id message_id (message_manager bc) = Some r ->
      messages (message_manager bc) !! r = Some o ->
      ~ (0 <= option_index < Z.of_nat (length (mo_generated_messages o)))%Z.
Proof.
  unfold select_message_option.
  destruct (get_message_by_id message_id (message_manager bc)) as [r|] eqn:Hget;
    [|split; [done | intros ? ? [=]]].
  destruct (messages (message_manager bc) !! r) as [o|] eqn:Ho;
    [|split; [done | intros r0 o0 [= <-] H; rewrite Ho in H; discriminate H]].
  unfold select_message.
  destruct ((0 <=? option_index)%Z && _) eqn:Hrange.
  - apply andb_true_iff in Hrange as [Hlow Hhigh].
    apply Z.leb_le in Hlow. apply Z.ltb_lt in Hhigh.
    destruct (lookup_lt_is_Some_2 (mo_generated_messages o) (Z.to_nat option_index))
      as [text Htext]; [lia|].
    exists r, o, text. rewrite Htext. repeat split; try done; lia.
  - split.
    + rewrite list_insert_id by exact Ho. rewrite set_messages_same. by destruct bc.
    + intros r' o' [= <-] Ho'. rewrite Ho in Ho'. injection Ho' as <-.
      intros [Hlow Hhigh].
      apply andb_false_iff in Hrange as [H | H];
        [apply Z.leb_gt in H | apply Z.ltb_ge in H]; lia.
Qed.

(** Extra X5.  [send_selected_message] succeeds only on a delivered
    message of a known entity with a non-empty selection, and then marks
    that entity sent; in every other case the controller is unchanged. *)
Theorem send_selected_message_spec (message_id : string) (delivered : bool)
    (bc : BotController) :
  let '(ok, bc') := send_selected_message message_id delivered bc in
  if ok then
    delivered = true /\
    exists r o text,
      get_message_by_id message_id (message_manager bc) = Some r /\
      messages (message_manager bc) !! r = Some o /\
      mo_selected_message o = Some text /\ text <> "" /\
      messages (message_manager bc') !! r = Some (set_sent true o)
  else bc' = bc.
Proof.
  unfold send_selected_message.
  destruct (get_message_by_id message_id (message_manager bc)) as [r|] eqn:Hget; [|done].
  destruct (messages (message_manager bc) !! r) as [o|] eqn:Ho; [|done].
  destruct o as [id ty rid orig user ts cands [text|] snt del gen]; [|done].
  destruct (String.eqb_spec text ""); [done|].
  destruct delivered; [|done].
  split; [done|]. eexists r, _, text. repeat split; try done.
  cbn [message_manager]. rewrite (mark_message_sent_found _ _ _ Hget). cbn.
  by rewrite list_lookup_alter_eq, Ho.
Qed.

Lemma send_succeeds_iff message_id bc :
  fst (send_selected_message message_id true bc) = true <->
  exists r o text,
    get_message_by_id message_id (message_manager bc) = Some r /\
    messages (message_manager bc) !! r = Some o /\
    mo_selected_message o = Some text /\ text <> "".
Proof.
  unfold send_selected_message. split.
  - destruct (get_message_by_id message_id (message_manager bc)) as [r|]; [|done].
    destruct (messages (message_manager bc) !! r) as [o|] eqn:Ho; [|done].
    destruct o as [? ? ? ? ? ? ? [text|] ? ? ?]; [|done].
    destruct (String.eqb_spec text ""); [done|].
    intros _. eexists r, _, text. repeat split; [exact Ho | done..].
  - intros (r & o & text & -> & -> & Hsel & Hne).
    destruct o as [? ? ? ? ? ? ? [t|] ? ? ?]; cbn in Hsel; [|done].
    injection Hsel as ->. destruct (String.eqb_spec text ""); [contradiction | reflexivity].
Qed.

Lemma send_selected_message_success message_id bc r o text :
  get_message_by_id message_id (message_manager bc) = Some r ->
  messages (message_manager bc) !! r = Some o ->
  mo_selected_message o = Some text -> text <> "" ->
  send_selected_message message_id true bc
  = (true, {| groupme_interface := groupme_interface bc;
              message_manager := mark_message_sent message_id (message_manager bc);
              running := running bc |}).
Proof.
  intros Hget Ho Hsel Hne. unfold send_selected_message. rewrite Hget, Ho.
  destruct o as [? ? ? ? ? ? ? [t|] ? ? ?]; cbn in Hsel; [|done].
  injection Hsel as ->. by destruct (String.eqb_spec text "").
Qed.

(** Extra X6.  An entity that can be sent can be sent again after it was
    sent, and can be sent after it was deleted: neither flag is looked
    at by [send_selected_message]. *)
Theorem sent_or_deleted_entity_can_be_sent (message_id : string) (bc : BotController) :
  fst (send_selected_message message_id true bc) = true ->
  fst (send_selected_message message_id true
         (snd (send_selected_message message_id true bc))) = true /\
  fst (send_selected_message message_id true (controller_delete_message message_id bc)) = true.
Proof.
  intros Hok.
  apply send_succeeds_iff in Hok as (r & o & text & Hget & Ho & Hsel & Hne).
  rewrite (send_selected_message_success _ _ _ _ _ Hget Ho Hsel Hne). cbn [snd].
  split; apply send_succeeds_iff; cbn [message_manager].
  - exists r, (set_sent true o), text.
    rewrite (mark_message_sent_found _ _ _ Hget).
    rewrite get_message_by_id_alter by done. cbn [messages set_messages].
    rewrite list_lookup_alter_eq, Ho. by destruct o.
  - exists r, (set_deleted true o), text. unfold controller_delete_message.
    cbn [message_manager]. rewrite (delete_message_found _ _ _ Hget).
    rewrite get_message_by_id_alter by done. cbn [messages set_messages].
    rewrite list_lookup_alter_eq, Ho. by destruct o.
Qed.

Lemma sent_or_deleted_entity_can_be_sent_witness :
  fst (send_selected_message "1700000000000" true
         (snd (send_selected_message "1700000000000" true selected_controller))) = true /\
  fst (send_selected_message "1700000000000" true
         (controller_delete_message "1700000000000" selected_controller)) = true.
Proof.
  apply (sent_or_deleted_entity_can_be_sent "1700000000000" selected_controller).
  reflexivity.
Defined.


Lemma generating_count_register o m :
  get_generating_messages_count (snd (register (start_generation o) m))
  = S (get_generating_messages_count m).
Proof.
  unfold get_generating_messages_count, register. cbn [snd messages set_messages].
  rewrite List.filter_app, length_app. cbn. lia.
Qed.

(** Extra X7.  Without the key [message_generation_tries] a random batch
    raises [KeyError] after the entity was registered: the entity stays
    in the catalog, generating, and the daily counter is not advanced. *)
Theorem missing_width_leaves_entity_generating (env : batch_env) (m : MessageManager) :
  config m !! "message_generation_tries" = None ->
  let stuck := snd (register (start_generation
                      (MessageObject_init (created env) "random" None None None)) m) in
  generate_random_message env m = (Raise (KeyError "message_generation_tries"), stuck) /\
  messages stuck
  = messages m ++ [start_generation (MessageObject_init (created env) "random" None None None)] /\
  get_generating_messages_count stuck = S (get_generating_messages_count m) /\
  messages_per_day stuck = messages_per_day m.
Proof.
  intros Hcfg stuck.
  split; [|split; [reflexivity | split; [apply generating_count_register | reflexivity]]].
  unfold generate_random_message, run_batch, register, make_tasks, getitem.
  cbn [config set_messages]. by rewrite Hcfg.
Qed.

Lemma missing_width_leaves_entity_generating_witness :
  let stuck := snd (register (start_generation
                      (MessageObject_init (created quiet_batch) "random" None None None))
                      no_width_manager) in
  generate_random_message quiet_batch no_width_manager
  = (Raise (KeyError "message_generation_tries"), stuck) /\
  messages stuck
  = messages no_width_manager
    ++ [start_generation (MessageObject_init (created quiet_batch) "random" None None None)] /\
  get_generating_messages_count stuck = S (get_generating_messages_count no_width_manager) /\
  messages_per_day stuck = messages_per_day no_width_manager.
Proof.
  apply (missing_width_leaves_entity_generating quiet_batch no_width_manager).
  reflexivity.
Defined.

Lemma fill_slots_no_tasks schedule : fill_slots [] schedule [] = [].
Proof. induction schedule as [|i rest IH]; [done|]. cbn. exact IH. Qed.

Lemma gather_no_tasks schedule : gather [] schedule = Some [].
Proof. unfold gather. cbn [length replicate]. by rewrite fill_slots_no_tasks. Qed.

(** Extra X8.  With a width of 0 or less the batch returns at once with
    an entity that has no candidate and is not generating; no index can
    be selected on it. *)
Theorem nonpositive_width_gives_no_candidates (env : batch_env) (m : MessageManager)
    (width : Z) :
  (width <= 0)%Z ->
  config m !! "message_generation_tries" = Some (VInt width) ->
  leaves_candidates (length (messages m)) (interleaved env) ->
  exists r m' o,
    generate_random_message env m = (Ok r, m') /\
    messages m' !! r = Some o /\
    mo_generating o = false /\
    mo_generated_messages o = [] /\
    forall option_index, select_message option_index o = (false, o).
Proof.
  intros Hwidth Hcfg Hleave.
  unfold generate_random_message, run_batch, register, _execute_generation_tasks.
  rewrite (make_tasks_width _ _ width) by exact Hcfg.
  replace (Z.to_nat width) with 0%nat by lia. cbn [seq fmap list_fmap].
  rewrite gather_no_tasks.
  set (obj := start_generation (MessageObject_init (created env) "random" None None None)).
  destruct (Hleave (set_messages (messages m ++ [obj]) m) obj) as (o' & Ho' & Hcand).
  { cbn. by rewrite lookup_app_r, Nat.sub_diag. }
  eexists _, _, (stop_generation o'). split; [reflexivity|].
  cbn [messages set_messages set_counter record_results foldl].
  rewrite !list_lookup_alter_eq, Ho'. cbn [fmap option_fmap option_map].
  assert (Hnone : mo_generated_messages (stop_generation o') = []) by exact Hcand.
  repeat split; try done.
  intros option_index. unfold select_message. rewrite Hnone. cbn [length].
  destruct ((0 <=? option_index)%Z && _) eqn:Hrange; [|reflexivity].
  apply andb_true_iff in Hrange as [Hlow Hhigh].
  apply Z.leb_le in Hlow. apply Z.ltb_lt in Hhigh. cbn in Hhigh. lia.
Qed.

Lemma nonpositive_width_gives_no_candidates_witness :
  exists r m' o,
    generate_random_message quiet_batch zero_width_manager = (Ok r, m') /\
    messages m' !! r = Some o /\
    mo_generating o = false /\
    mo_generated_messages o = [] /\
    forall option_index, select_message option_index o = (false, o).
Proof.
  apply (nonpositive_width_gives_no_candidates quiet_batch zero_width_manager 0).
  - lia.
  - reflexivity.
  - apply leaves_candidates_id.
Defined.

Lemma reply_probability_no_likes cfg text chance_v chance minimum_v minimum :
  references_keller text = false ->
  cfg !! "reply_chance_per_like" = Some chance_v ->
  as_number chance_v = Some chance ->
  cfg !! "minimum_reply_chance" = Some minimum_v ->
  as_number minimum_v = Some minimum ->
  (0 <= minimum)%Q ->
  exists p, reply_probability cfg text 0 = Ok p /\ (p == minimum)%Q.
Proof.
  intros Hkw Hck Hcn Hmk Hmn Hmin.
  unfold reply_probability, getitem, number.
  rewrite Hck, Hmk. cbn [Py.bind]. rewrite Hcn, Hmn, Hkw. cbn [Py.bind].
  eexists. split; [reflexivity|].
  assert (H0 : (py_min (chance * inject_Z 0) 1 == 0)%Q).
  { change (inject_Z 0) with 0%Q. unfold py_min.
    destruct (Qlt_bool 1 (chance * 0)) eqn:H; [|apply Qmult_0_r].
    apply Qlt_bool_iff in H. rewrite Qmult_0_r in H. discriminate H. }
  destruct (Qlt_bool _ minimum) eqn:Hlt; [reflexivity|].
  apply Qlt_bool_false_iff in Hlt. rewrite H0 in Hlt |- *.
  by apply Qle_antisym.
Qed.

(** Extra X9.  For a message without the keyword and with no likes the
    reply probability is [minimum_reply_chance] itself (taken at least
    0), a value the code holds without rounding: a reply is generated
    exactly when the sample is at most that floor (the bound included);
    the batch then yields one candidate per attempt, a failure as
    ["Error generating reply: <error>"]; otherwise nothing is created
    and the manager is unchanged. *)
Theorem reply_decision_threshold (reply_to_id text : string)
    (username : option string) (sample : Q) (env : batch_env) (m : MessageManager)
    (chance_v minimum_v : value) (chance minimum : Q) (width : Z) :
  references_keller text = false ->
  config m !! "reply_chance_per_like" = Some chance_v ->
  as_number chance_v = Some chance ->
  config m !! "minimum_reply_chance" = Some minimum_v ->
  as_number minimum_v = Some minimum ->
  (0 <= minimum)%Q ->
  config m !! "message_generation_tries" = Some (VInt width) ->
  schedule env ≡ₚ seq 0 (Z.to_nat width) ->
  leaves_candidates (length (messages m)) (interleaved env) ->
  if Qle_bool sample minimum
  then exists r m' o,
         generate_reply_message reply_to_id text 0 username sample env m
         = (Ok (Some r), m') /\
         messages m' !! r = Some o /\
         mo_generating o = false /\
         mo_generated_messages o
         = (fun i => match backend env i with
                     | Returned reply => reply
                     | Failed err => "Error generating reply: " +:+ err
                     end) <$> seq 0 (Z.to_nat width)
  else generate_reply_message reply_to_id text 0 username sample env m = (Ok None, m).
Proof.
  intros Hkw Hck Hcn Hmk Hmn Hmin Hcfg Hperm Hleave.
  destruct (reply_probability_no_likes (config m) text chance_v chance minimum_v minimum
              Hkw Hck Hcn Hmk Hmn Hmin) as (p & Hp & Heq).
  unfold generate_reply_message. rewrite Hp.
  unfold Qlt_bool. rewrite (Qleb_comp sample sample (Qeq_refl sample) p minimum Heq).
  destruct (Qle_bool sample minimum); cbn [negb]; [|reflexivity].
  destruct (run_batch_completes "reply"
              (MessageObject_init (created env) "reply" (Some reply_to_id) (Some text) username)
              env m width Hcfg Hperm Hleave) as (m' & o & -> & Ho & Hgen & Hcand).
  eexists _, _, o. split; [reflexivity|]. split; [exact Ho|]. split; [exact Hgen|].
  rewrite Hcand. cbn [MessageObject_init mo_generated_messages app].
  rewrite <- list_fmap_compose. apply list_fmap_ext. intros i x _. cbn.
  by destruct (backend env x).
Qed.

(** With the default floor of 0.01: a sample of 0.005 generates. *)
Lemma reply_decision_threshold_witness :
  exists r m' o,
    generate_reply_message "7" "nice day" 0 (Some "Ann") (1 # 200)%Q quiet_batch fresh_manager
    = (Ok (Some r), m') /\
    messages m' !! r = Some o /\
    mo_generating o = false /\
    mo_generated_messages o
    = (fun i => match backend quiet_batch i with
                | Returned reply => reply
                | Failed err => "Error generating reply: " +:+ err
                end) <$> seq 0 (Z.to_nat 3).
Proof.
  apply (reply_decision_threshold "7" "nice day" (Some "Ann") (1 # 200)%Q
           quiet_batch fresh_manager (VFloat (3 # 10)) (VFloat (1 # 100))
           (3 # 10)%Q (1 # 100)%Q 3).
  - reflexivity.
  - reflexivity.
  - reflexivity.
  - reflexivity.
  - reflexivity.
  - discriminate.
  - reflexivity.
  - reflexivity.
  - apply leaves_candidates_id.
Defined.


Lemma run_batch_counters message_type message_obj env m :
  keeps_counters (interleaved env) ->
  messages_per_day (snd (run_batch message_type message_obj env m)) = messages_per_day m /\
  last_random_message_time (snd (run_batch message_type message_obj env m))
  = last_random_message_time m.
Proof.
  intros Hkeep. unfold run_batch, register, _execute_generation_tasks.
  destruct (make_tasks _ _) as [tasks|e|]; cbn [snd]; try done.
  destruct (Hkeep (set_messages (messages m ++ [start_generation message_obj]) m)) as [H1 H2].
  destruct (gather tasks (schedule env)); cbn; by rewrite ?H1, ?H2.
Qed.

(** Extra X10.  Reply, manual and introduction batches leave the daily
    counter alone; a random batch advances it by one, and sets the time
    of the last random message, only when it returns. *)
Theorem only_random_batches_are_counted (reply_to_id text : string) (likes : Z)
    (username : option string) (sample : Q) (env : batch_env) (m : MessageManager) :
  keeps_counters (interleaved env) ->
  messages_per_day (snd (generate_reply_message reply_to_id text likes username sample env m))
  = messages_per_day m /\
  messages_per_day (snd (generate_manual_message env m)) = messages_per_day m /\
  messages_per_day (snd (generate_introduction_message env m)) = messages_per_day m /\
  match generate_random_message env m with
  | (Ok _, m') =>
      messages_per_day m' = (messages_per_day m + 1)%Z /\
      last_random_message_time m' = finished env
  | (_, m') =>
      messages_per_day m' = messages_per_day m /\
      last_random_message_time m' = last_random_message_time m
  end.
Proof.
  intros Hkeep.
  pose proof (fun ty obj => run_batch_counters ty obj env m Hkeep) as Hrun.
  repeat split.
  - unfold generate_reply_message.
    destruct (reply_probability _ _ _) as [p|e|]; [|done..].
    destruct (Qlt_bool p sample); [done|].
    specialize (Hrun "reply" (MessageObject_init (created env) "reply" (Some reply_to_id)
                                (Some text) username)).
    destruct (run_batch _ _ _ _) as [[r|e|] m2]; apply Hrun.
  - apply Hrun.
  - unfold generate_introduction_message.
    destruct (getitem _ "introduction_prompt") as [prompt|e|]; [|done..].
    destruct (getitem _ "message_generation_tries") as [tries|e|]; [|done..].
    destruct prompt; try done. apply Hrun.
  - unfold generate_random_message.
    specialize (Hrun "random" (MessageObject_init (created env) "random" None None None)).
    destruct (run_batch _ _ _ _) as [[r|e|] m2]; cbn in *; destruct Hrun as [H1 H2];
      split; congruence.
Qed.

Lemma only_random_batches_are_counted_witness :
  messages_per_day
    (snd (generate_reply_message "7" "hi Keller" 0 (Some "Ann") (1 # 2)%Q quiet_batch
            fresh_manager))
  = messages_per_day fresh_manager /\
  messages_per_day (snd (generate_manual_message quiet_batch fresh_manager))
  = messages_per_day fresh_manager /\
  messages_per_day (snd (generate_introduction_message quiet_batch fresh_manager))
  = messages_per_day fresh_manager /\
  match generate_random_message quiet_batch fresh_manager with
  | (Ok _, m') =>
      messages_per_day m' = (messages_per_day fresh_manager + 1)%Z /\
      last_random_message_time m' = finished quiet_batch
  | (_, m') =>
      messages_per_day m' = messages_per_day fresh_manager /\
      last_random_message_time m' = last_random_message_time fresh_manager
  end.
Proof.
  apply (only_random_batches_are_counted "7" "hi Keller" 0 (Some "Ann") (1 # 2)%Q
           quiet_batch fresh_manager).
  intros m. split; reflexivity.
Defined.

(** Extra X11.  Without the key [introduction_prompt] the introduction
    batch raises [KeyError] after the entity was registered: the entity
    stays generating and is listed as pending. *)
Theorem introduction_needs_prompt (env : batch_env) (m : MessageManager) :
  config m !! "introduction_prompt" = None ->
  let stuck := snd (register (start_generation
                      (MessageObject_init (created env) "introduction" None None None)) m) in
  generate_introduction_message env m = (Raise (KeyError "introduction_prompt"), stuck) /\
  get_generating_messages_count stuck = S (get_generating_messages_count m) /\
  get_pending_messages stuck
  = get_pending_messages m
    ++ [start_generation (MessageObject_init (created env) "introduction" None None None)].
Proof.
  intros Hcfg stuck. split; [|split].
  - unfold generate_introduction_message, getitem. cbn [register snd config set_messages].
    by rewrite Hcfg.
  - apply generating_count_register.
  - unfold get_pending_messages, stuck, register. cbn [snd messages set_messages].
    by rewrite List.filter_app.
Qed.

Lemma introduction_needs_prompt_witness :
  let stuck := snd (register (start_generation
                      (MessageObject_init (created quiet_batch) "introduction" None None None))
                      no_prompt_manager) in
  generate_introduction_message quiet_batch no_prompt_manager
  = (Raise (KeyError "introduction_prompt"), stuck) /\
  get_generating_messages_count stuck = S (get_generating_messages_count no_prompt_manager) /\
  get_pending_messages stuck
  = get_pending_messages no_prompt_manager
    ++ [start_generation
          (MessageObject_init (created quiet_batch) "introduction" None None None)].
Proof.
  apply (introduction_needs_prompt quiet_batch no_prompt_manager).
  reflexivity.
Defined.

(** Extra X12.  With a prompt and a width configured, an introduction
    batch returns an entity that is not generating and has one candidate
    per attempt, a failure as ["Error generating introduction: <error>"]. *)
Theorem introduction_batch_width (env : batch_env) (m : MessageManager) (prompt : string)
    (width : Z) :
  config m !! "introduction_prompt" = Some (VStr prompt) ->
  config m !! "message_generation_tries" = Some (VInt width) ->
  schedule env ≡ₚ seq 0 (Z.to_nat width) ->
  leaves_candidates (length (messages m)) (interleaved env) ->
  exists r m' o,
    generate_introduction_message env m = (Ok r, m') /\
    messages m' !! r = Some o /\
    mo_generating o = false /\
    mo_generated_messages o
    = (fun i => match backend env i with
                | Returned text => text
                | Failed err => "Error generating introduction: " +:+ err
                end) <$> seq 0 (Z.to_nat width).
Proof.
  intros Hprompt Hcfg Hperm Hleave.
  unfold generate_introduction_message, getitem. cbn [register snd config set_messages].
  rewrite Hprompt, Hcfg.
  destruct (run_batch_completes "introduction"
              (MessageObject_init (created env) "introduction" None None None)
              env m width Hcfg Hperm Hleave) as (m' & o & -> & Ho & Hgen & Hcand).
  eexists _, _, o. split; [reflexivity|]. split; [exact Ho|]. split; [exact Hgen|].
  rewrite Hcand. cbn [MessageObject_init mo_generated_messages app].
  rewrite <- list_fmap_compose. apply list_fmap_ext. intros i x _. cbn.
  by destruct (backend env x).
Qed.

Lemma introduction_batch_width_witness :
  exists r m' o,
    generate_introduction_message sample_batch fresh_manager = (Ok r, m') /\
    messages m' !! r = Some o /\
    mo_generating o = false /\
    mo_generated_messages o
    = (fun i => match backend sample_batch i with
                | Returned text => text
                | Failed err => "Error generating introduction: " +:+ err
                end) <$> seq 0 (Z.to_nat 3).
Proof.
  apply (introduction_batch_width sample_batch fresh_manager
           "Introduce yourself as a friendly bot that's here to chat and help out!" 3).
  - reflexivity.
  - reflexivity.
  - cbn. apply (Permutation_cons_app [0; 1]%nat [] 2%nat). reflexivity.
  - apply leaves_candidates_delete_message.
Defined.

Lemma generate_message_phrases gen message_type reply api pick first rest :
  common_phrases gen = first :: rest ->
  exists text,
    generate_message gen message_type reply api pick = Returned text /\
    match api with
    | ApiText output_text => text = output_text
    | ApiError => text ∈ common_phrases gen
    end.
Proof.
  intros Hphrases. unfold generate_message. rewrite Hphrases.
  destruct api as [output_text|]; eexists; (split; [reflexivity|]); [reflexivity|].
  apply list_elem_of_In, nth_In.
  apply Nat.mod_upper_bound. discriminate.
Qed.

Lemma fmap_constant {A B} (f : A -> B) (b : B) (l : list A) :
  (forall x, f x = b) -> f <$> l = replicate (length l) b.
Proof.
  intros Hf. induction l as [|x l IH]; [done|]. cbn. by rewrite Hf, IH.
Qed.

(** Extra X13.  With no common phrase [generate_message] raises before
    the backend is called; with at least one it never raises: it returns
    the text of the backend, or one of the common phrases when the
    backend fails. *)
Theorem generate_message_falls_back (gen : MessageGenerator) (message_type : option string)
    (reply : bool) (api : api_outcome) (pick : nat) :
  match common_phrases gen with
  | [] =>
      generate_message gen message_type reply api pick
      = Failed "No common phrases found. Please add phrases to common_phrases.txt"
  | _ :: _ =>
      exists text,
        generate_message gen message_type reply api pick = Returned text /\
        match api with
        | ApiText output_text => text = output_text
        | ApiError => text ∈ common_phrases gen
        end
  end.
Proof.
  destruct (common_phrases gen) as [|first rest] eqn:Hphrases.
  - unfold generate_message. by rewrite Hphrases.
  - rewrite <- Hphrases. by eapply generate_message_phrases.
Qed.

(** Extra X14.  In a random batch fed by [generate_message], every
    candidate is a backend text or a common phrase when phrases exist,
    and all candidates are the same error marker when there is none. *)
Theorem batch_of_generator (gen : MessageGenerator) (apis : nat -> api_outcome)
    (picks : nat -> nat) (env : batch_env) (m : MessageManager) (width : Z) :
  (forall i, backend env i = generate_message gen None false (apis i) (picks i)) ->
  config m !! "message_generation_tries" = Some (VInt width) ->
  schedule env ≡ₚ seq 0 (Z.to_nat width) ->
  leaves_candidates (length (messages m)) (interleaved env) ->
  exists r m' o,
    generate_random_message env m = (Ok r, m') /\
    messages m' !! r = Some o /\
    match common_phrases gen with
    | [] =>
        mo_generated_messages o
        = replicate (Z.to_nat width)
            "Error generating random: No common phrases found. Please add phrases to common_phrases.txt"
    | _ :: _ =>
        forall text, text ∈ mo_generated_messages o ->
          text ∈ common_phrases gen \/ exists i, apis i = ApiText text
    end.
Proof.
  intros Hbackend Hcfg Hperm Hleave.
  destruct (run_batch_completes "random"
              (MessageObject_init (created env) "random" None None None)
              env m width Hcfg Hperm Hleave) as (m' & o & Hrun & Ho & _ & Hcand).
  unfold generate_random_message. rewrite Hrun.
  eexists _, _, o. split; [reflexivity|]. split; [exact Ho|].
  rewrite Hcand. cbn [MessageObject_init mo_generated_messages app].
  rewrite <- list_fmap_compose.
  destruct (common_phrases gen) as [|first rest] eqn:Hphrases.
  - rewrite (fmap_constant _
               "Error generating random: No common phrases found. Please add phrases to common_phrases.txt").
    + by rewrite length_seq.
    + intros i. cbn. rewrite Hbackend. unfold generate_message.
      by rewrite Hphrases.
  - intros text Hin. apply list_elem_of_fmap in Hin as (i & -> & _). cbn.
    destruct (generate_message_phrases gen None false (apis i) (picks i) first rest Hphrases)
      as (t & Ht & Hsrc).
    rewrite Hbackend, Ht. cbn.
    destruct (apis i) as [output_text|] eqn:Hapi; [right | left].
    + exists i. by rewrite Hapi, Hsrc.
    + by rewrite <- Hphrases.
Qed.

Lemma batch_of_generator_witness :
  exists r m' o,
    generate_random_message generator_batch fresh_manager = (Ok r, m') /\
    messages m' !! r = Some o /\
    forall text, text ∈ mo_generated_messages o ->
      text ∈ common_phrases two_phrases \/ exists i, flaky_api i = ApiText text.
Proof.
  apply (batch_of_generator two_phrases flaky_api (fun i => i) generator_batch fresh_manager 3).
  - reflexivity.
  - reflexivity.
  - reflexivity.
  - apply leaves_candidates_id.
Defined.


Lemma update_config_accepted new_config m :
  fst (update_config new_config m) = Ok tt ->
  update_config new_config m
  = (Ok tt, save_config (set_config (Py.update (config m) new_config) m)).
Proof.
  unfold update_config.
  destruct (validate_polling_interval new_config) as [[]|e|]; cbn; done.
Qed.

(** Extra X16.  An accepted update overrides the keys it carries and
    keeps every other key, writes the result to the file, from which a
    restarted manager loads the same configuration, and touches neither
    the catalog nor the daily counter. *)
Theorem accepted_update_merges_and_saves (new_config : gmap string value)
    (m : MessageManager) :
  fst (update_config new_config m) = Ok tt ->
  let m' := snd (update_config new_config m) in
  (forall key, config m' !! key
               = match new_config !! key with
                 | Some v => Some v
                 | None => config m !! key
                 end) /\
  saved_config m' = Some (config m') /\
  config (MessageManager_init (saved_config m') 0) = config m' /\
  messages m' = messages m /\
  messages_per_day m' = messages_per_day m /\
  last_random_message_time m' = last_random_message_time m.
Proof.
  intros Hok m'. unfold m'. rewrite (update_config_accepted _ _ Hok).
  cbn. repeat split.
  intros key. unfold Py.update. rewrite lookup_union.
  destruct (new_config !! key), (config m !! key); done.
Qed.

Lemma accepted_update_merges_and_saves_witness :
  let new_config : gmap string value := {[ "polling_interval_seconds" := VInt 30 ]} in
  let m' := snd (update_config new_config fresh_manager) in
  (forall key, config m' !! key
               = match new_config !! key with
                 | Some v => Some v
                 | None => config fresh_manager !! key
                 end) /\
  saved_config m' = Some (config m') /\
  config (MessageManager_init (saved_config m') 0) = config m' /\
  messages m' = messages fresh_manager /\
  messages_per_day m' = messages_per_day fresh_manager /\
  last_random_message_time m' = last_random_message_time fresh_manager.
Proof.
  apply (accepted_update_merges_and_saves {[ "polling_interval_seconds" := VInt 30 ]}
           fresh_manager).
  reflexivity.
Defined.

(** Extra X18.  With a valid polling interval an iteration of the loop
    is the cycle followed by a sleep of that interval, in (0, 3600]; the
    loop's own error handler is not entered and the random trigger does
    not divide by zero. *)
Theorem valid_interval_never_recovers (env : cycle_env) (last : option value)
    (bc : BotController) :
  interval_valid (config (message_manager bc)) ->
  exists q events,
    (0 < q)%Q /\ (q <= 3600)%Q /\
    fst (fst (loop_iteration env last bc)) = events ++ [Sleep q] /\
    events = fst (_process_polling_cycle env bc) /\
    (LogError "Error in polling loop" ∉ fst (fst (loop_iteration env last bc))) /\
    (fst (should_send_random_message (now env) (sample env) (message_manager bc))
     <> Raise ZeroDivisionError).
Proof.
  intros (q & Hq & Hpos & Hle).
  destruct (loop_iteration_numeric env last bc q Hq) as (last' & Hiter).
  exists q, (fst (_process_polling_cycle env bc)). rewrite Hiter. cbn [fst].
  repeat split; try done.
  - intros [Hin | Hin]%elem_of_app.
    + revert Hin. unfold _process_polling_cycle.
      destruct (poll_new_messages _ _) as [[new_messages|e|] g']; cbn [fst].
      * destruct (should_send_random_message _ _ _) as [[[]|e|] m']; cbn [fst];
          rewrite ?elem_of_app, ?list_elem_of_fmap, ?list_elem_of_singleton;
          intros H; destruct_or?; try discriminate;
          by destruct H as (? & [=] & _).
      * intros H. apply list_elem_of_singleton in H. discriminate.
      * intros H. apply list_elem_of_singleton in H. discriminate.
    + apply list_elem_of_singleton in Hin. discriminate.
  - unfold should_send_random_message. cbn [fst].
    rewrite reset_keeps_config, Hq. cbn [Py.bind].
    destruct (Qeq_bool q 0) eqn:Hz.
    { apply Qeq_bool_iff in Hz. rewrite Hz in Hpos. by apply Qlt_irrefl in Hpos. }
    unfold getitem, number.
    destruct (_ !! _); cbn [Py.bind]; [|done].
    destruct (as_number _); cbn [Py.bind]; done.
Qed.

Lemma valid_interval_never_recovers_witness :
  exists q events,
    (0 < q)%Q /\ (q <= 3600)%Q /\
    fst (fst (loop_iteration failing_cycle None fresh_controller)) = events ++ [Sleep q] /\
    events = fst (_process_polling_cycle failing_cycle fresh_controller) /\
    (LogError "Error in polling loop"
       ∉ fst (fst (loop_iteration failing_cycle None fresh_controller))) /\
    (fst (should_send_random_message (now failing_cycle) (sample failing_cycle)
            (message_manager fresh_controller))
     <> Raise ZeroDivisionError).
Proof.
  apply (valid_interval_never_recovers failing_cycle None fresh_controller).
  exact default_config_interval_valid.
Defined.

Section ReplyProbability.

Variable cfg : gmap string value.
Variables chance_v minimum_v : value.
Variables chance minimum : Q.
Hypothesis chance_key : cfg !! "reply_chance_per_like" = Some chance_v.
Hypothesis chance_number : as_number chance_v = Some chance.
Hypothesis minimum_key : cfg !! "minimum_reply_chance" = Some minimum_v.
Hypothesis minimum_number : as_number minimum_v = Some minimum.

Lemma reply_probability_value text likes :
  reply_probability cfg text likes
  = Ok (let p0 := py_min (chance * inject_Z likes) 1 in
        let p1 := if references_keller text then (p0 + 1)%Q else p0 in
        if Qlt_bool p1 minimum then minimum else p1).
Proof.
  unfold reply_probability, getitem, number.
  rewrite chance_key, minimum_key. cbn [Py.bind].
  by rewrite chance_number, minimum_number.
Qed.

Lemma py_min_le_1 x : (py_min x 1 <= 1)%Q.
Proof.
  unfold py_min. destruct (Qlt_bool 1 x) eqn:H; [apply Qle_refl|].
  by apply Qlt_bool_false_iff.
Qed.

Lemma py_min_mono x y : (x <= y)%Q -> (py_min x 1 <= py_min y 1)%Q.
Proof.
  intros Hxy. unfold py_min.
  destruct (Qlt_bool 1 x) eqn:Hx, (Qlt_bool 1 y) eqn:Hy.
  - apply Qle_refl.
  - apply Qlt_bool_iff in Hx. apply Qlt_bool_false_iff in Hy.
    exfalso. apply (Qlt_not_le _ _ Hx). by eapply Qle_trans.
  - by apply Qlt_bool_false_iff.
  - exact Hxy.
Qed.

Lemma floor_mono p q : (p <= q)%Q ->
  ((if Qlt_bool p minimum then minimum else p)
   <= (if Qlt_bool q minimum then minimum else q))%Q.
Proof.
  intros Hpq.
  destruct (Qlt_bool p minimum) eqn:Hp, (Qlt_bool q minimum) eqn:Hq.
  - apply Qle_refl.
  - by apply Qlt_bool_false_iff.
  - apply Qlt_bool_iff in Hq. apply Qlt_bool_false_iff in Hp.
    eapply Qle_trans; [exact Hpq | by apply Qlt_le_weak].
  - exact Hpq.
Qed.

(** Extra X19.  The reply probability is never below
    [minimum_reply_chance]; without the keyword it is at most 1 unless it
    is the floor itself; with no likes and no keyword it is exactly the
    floor (for a floor of at least 0). *)
Theorem reply_probability_bounds (text : string) (likes : Z) :
  exists p,
    reply_probability cfg text likes = Ok p /\
    (minimum <= p)%Q /\
    (references_keller text = false -> (p <= 1)%Q \/ (p == minimum)%Q) /\
    (references_keller text = false -> likes = 0%Z -> (0 <= minimum)%Q -> (p == minimum)%Q).
Proof.
  rewrite reply_probability_value. eexists. split; [reflexivity|]. cbn zeta.
  split; [|split].
  - destruct (Qlt_bool _ minimum) eqn:Hlt; [apply Qle_refl|].
    by apply Qlt_bool_false_iff.
  - intros ->. destruct (Qlt_bool _ minimum); [by right | left; apply py_min_le_1].
  - intros -> -> Hmin.
    assert (H0 : (py_min (chance * inject_Z 0) 1 == 0)%Q).
    { change (inject_Z 0) with 0%Q. unfold py_min.
      destruct (Qlt_bool 1 (chance * 0)) eqn:H; [|apply Qmult_0_r].
      apply Qlt_bool_iff in H. rewrite Qmult_0_r in H. discriminate H. }
    destruct (Qlt_bool _ minimum) eqn:Hlt; [reflexivity|].
    apply Qlt_bool_false_iff in Hlt. rewrite H0 in Hlt |- *.
    by apply Qle_antisym.
Qed.

(** Extra X20.  For a non-negative slope the reply probability does not
    decrease when the number of likes grows. *)
Theorem reply_probability_monotone (text : string) (likes likes' : Z) :
  (0 <= chance)%Q ->
  (likes <= likes')%Z ->
  exists p p',
    reply_probability cfg text likes = Ok p /\
    reply_probability cfg text likes' = Ok p' /\
    (p <= p')%Q.
Proof.
  intros Hchance Hlikes. rewrite !reply_probability_value.
  eexists _, _. split; [reflexivity|]. split; [reflexivity|]. cbn zeta.
  apply floor_mono.
  assert (Hmin : (py_min (chance * inject_Z likes) 1 <= py_min (chance * inject_Z likes') 1)%Q).
  { apply py_min_mono. rewrite !(Qmult_comm chance).
    apply Qmult_le_compat_r; [by rewrite <- Zle_Qle | exact Hchance]. }
  destruct (references_keller text); [by apply Qplus_le_l | exact Hmin].
Qed.

End ReplyProbability.

Lemma reply_probability_bounds_witness :
  exists p,
    reply_probability default_config "nice day" 0 = Ok p /\
    (1 # 100 <= p)%Q /\
    (references_keller "nice day" = false -> (p <= 1)%Q \/ (p == 1 # 100)%Q) /\
    (references_keller "nice day" = false -> 0%Z = 0%Z -> (0 <= 1 # 100)%Q ->
     (p == 1 # 100)%Q).
Proof.
  apply (reply_probability_bounds default_config (VFloat (3 # 10)) (VFloat (1 # 100))
           (3 # 10)%Q (1 # 100)%Q); reflexivity.
Defined.

Lemma reply_probability_monotone_witness :
  exists p p',
    reply_probability default_config "nice day" 1 = Ok p /\
    reply_probability default_config "nice day" 2 = Ok p' /\
    (p <= p')%Q.
Proof.
  apply (reply_probability_monotone default_config (VFloat (3 # 10)) (VFloat (1 # 100))
           (3 # 10)%Q (1 # 100)%Q).
  - reflexivity.
  - reflexivity.
  - reflexivity.
  - reflexivity.
  - discriminate.
  - lia.
Defined.


(** Extra X29.  For a polling interval between 1 and 3600 seconds and a
    target of exactly [86400 / polling_interval_seconds] messages a day,
    the random trigger fires for every sample below 1.  (The number of
    cycles per day is then the target itself, a value the code holds
    without rounding, and its quotient by itself is 1.) *)
Theorem full_rate_trigger_always_fires (now : Z) (sample : Q) (m : MessageManager)
    (interval : Q) (target_v : value) (target : Q) :
  number (Py.get (config m) "polling_interval_seconds" (VInt 120)) = Ok interval ->
  (1 <= interval)%Q ->
  (interval <= 3600)%Q ->
  config m !! "random_messages_per_day" = Some target_v ->
  as_number target_v = Some target ->
  (target == inject_Z 86400 / interval)%Q ->
  (sample < 1)%Q ->
  fst (should_send_random_message now sample m) = Ok true.
Proof.
  intros Hint Hlow _ Hkey Hnum Heq Hs.
  assert (Hpos : (0 < interval)%Q) by (eapply Qlt_le_trans; [|exact Hlow]; reflexivity).
  assert (Hnz : ~ (interval == 0)%Q).
  { intros H0. rewrite H0 in Hpos. by apply Qlt_irrefl in Hpos. }
  unfold should_send_random_message. cbn [fst].
  rewrite reset_keeps_config, Hint. cbn [Py.bind].
  destruct (Qeq_bool interval 0) eqn:Hz.
  { apply Qeq_bool_iff in Hz. contradiction. }
  unfold getitem, number. rewrite Hkey. cbn [Py.bind]. rewrite Hnum. cbn [Py.bind].
  f_equal. apply Qlt_bool_iff.
  assert (Hc : ~ (inject_Z 86400 / interval == 0)%Q).
  { intros H0. apply Qmult_integral in H0 as [H0 | H0]; [discriminate H0|].
    apply Hnz. rewrite <- (Qinv_involutive interval), H0. reflexivity. }
  assert (Hp : (target / (inject_Z 86400 / interval) == 1)%Q).
  { rewrite Heq. unfold Qdiv at 1. by apply Qmult_inv_r. }
  rewrite Hp. exact Hs.
Qed.

(** Polling every 60 seconds with a target of 1440 messages a day. *)
Lemma full_rate_trigger_always_fires_witness :
  fst (should_send_random_message 0 (999 # 1000)
         (set_config (<[ "polling_interval_seconds" := VInt 60 ]>
                        (<[ "random_messages_per_day" := VInt 1440 ]> default_config))
            fresh_manager)) = Ok true.
Proof.
  apply (full_rate_trigger_always_fires 0 (999 # 1000) _ (inject_Z 60) (VInt 1440)
           (inject_Z 1440)).
  - reflexivity.
  - discriminate.
  - discriminate.
  - reflexivity.
  - reflexivity.
  - reflexivity.
  - reflexivity.
Defined.


(** Extra X21.  [should_send_random_message] changes nothing but the
    daily counter, which it resets (to 0, at the current time) exactly
    when a full day has passed since the last random message; its answer
    depends on the configuration and the sample only, not on the
    counter. *)
Theorem random_trigger_daily_reset (now : Z) (sample : Q) (m : MessageManager) :
  let m' := snd (should_send_random_message now sample m) in
  config m' = config m /\
  saved_config m' = saved_config m /\
  messages m' = messages m /\
  (if (86400000000 <=? now - last_random_message_time m)%Z
   then messages_per_day m' = 0%Z /\ last_random_message_time m' = now
   else m' = m) /\
  forall (other : MessageManager) (now' : Z),
    config other = config m ->
    fst (should_send_random_message now' sample other)
    = fst (should_send_random_message now sample m).
Proof.
  unfold should_send_random_message. cbn [fst snd].
  assert (Hdays : (1 <=? (now - last_random_message_time m) / 86400000000)%Z
                  = (86400000000 <=? now - last_random_message_time m)%Z).
  { apply eq_iff_eq_true. rewrite !Z.leb_le.
    split; intros H.
    - destruct (Z.le_gt_cases 86400000000 (now - last_random_message_time m))
        as [Hle | Hlt]; [exact Hle|].
      assert ((now - last_random_message_time m) / 86400000000 < 1)%Z
        by (apply Z.div_lt_upper_bound; lia).
      lia.
    - apply Z.div_le_lower_bound; lia. }
  rewrite Hdays. clear Hdays.
  split; [|split; [|split; [|split]]].
  - by destruct (_ <=? _)%Z.
  - by destruct (_ <=? _)%Z.
  - by destruct (_ <=? _)%Z.
  - by destruct (86400000000 <=? now - last_random_message_time m)%Z.
  - intros other now' Hcfg. rewrite !reset_keeps_config.
    destruct (86400000000 <=? now - last_random_message_time m)%Z; cbn; by rewrite Hcfg.
Qed.


Lemma collect_new_filter g group_id msgs :
  collect_new g group_id msgs = message_info group_id <$> List.filter (is_new_foreign g) msgs.
Proof.
  induction msgs as [|msg rest IH]; [done|].
  cbn [collect_new List.filter]. unfold is_new_foreign at 1.
  destruct (last_message_time g <? rm_created_at msg)%Z; cbn [andb]; [|exact IH].
  destruct (negb _); cbn; by rewrite IH.
Qed.

Lemma poll_response_general msgs g group_id :
  ready g group_id ->
  poll_new_messages (Response msgs) g
  = (Ok (if (last_message_time g =? 0)%Z then [] else collect_new g group_id msgs),
     match collect_new g group_id msgs with
     | [] => g
     | first :: rest => set_last_message_time (max_created_at first rest) g
     end).
Proof.
  intros (Hgid & Hne & Htok). unfold poll_new_messages. rewrite Hgid.
  destruct group_id as [|c rest]; [done|].
  destruct (String.eqb_spec (access_token g) ""); [done|]. reflexivity.
Qed.

(** Extra X22.  After the first run, a poll hands back, in the order of
    the answer, exactly the messages newer than the cursor that are not
    the bot's own; each carries the group id and its own id as reply
    target. *)
Theorem poll_returns_new_foreign_messages (msgs : list RawMessage) (g : GroupMeInterface)
    (group_id : string) :
  ready g group_id ->
  last_message_time g <> 0%Z ->
  fst (poll_new_messages (Response msgs) g)
  = Ok (message_info group_id <$> List.filter (is_new_foreign g) msgs) /\
  forall info new_messages,
    fst (poll_new_messages (Response msgs) g) = Ok new_messages ->
    info ∈ new_messages ->
    mi_user_id info <> current_user_id g /\
    (last_message_time g < mi_created_at info)%Z /\
    mi_group_id info = group_id /\
    mi_reply_to_id info = mi_id info /\
    exists msg, msg ∈ msgs /\ info = message_info group_id msg.
Proof.
  intros Hready Hcursor.
  rewrite (poll_response_general msgs g group_id Hready). cbn [fst].
  destruct (Z.eqb_spec (last_message_time g) 0); [done|].
  rewrite collect_new_filter. split; [reflexivity|].
  intros info new_messages [= <-] Hin.
  apply list_elem_of_fmap in Hin as (msg & -> & Hin).
  apply list_elem_of_In, filter_In in Hin as [Hin Hnew].
  unfold is_new_foreign in Hnew. apply andb_true_iff in Hnew as [Hlt Hother].
  apply Z.ltb_lt in Hlt. apply negb_true_iff in Hother.
  repeat split; try done.
  - cbn. intros Heq. rewrite Heq, String.eqb_refl in Hother. discriminate.
  - exists msg. split; [by apply list_elem_of_In | reflexivity].
Qed.

Lemma poll_returns_new_foreign_messages_witness :
  fst (poll_new_messages (Response [foreign_message; own_message]) warm_interface)
  = Ok (message_info "g1" <$> List.filter (is_new_foreign warm_interface)
                                [foreign_message; own_message]) /\
  forall info new_messages,
    fst (poll_new_messages (Response [foreign_message; own_message]) warm_interface)
    = Ok new_messages ->
    info ∈ new_messages ->
    mi_user_id info <> current_user_id warm_interface /\
    (last_message_time warm_interface < mi_created_at info)%Z /\
    mi_group_id info = "g1" /\
    mi_reply_to_id info = mi_id info /\
    exists msg, msg ∈ [foreign_message; own_message] /\ info = message_info "g1" msg.
Proof.
  apply (poll_returns_new_foreign_messages [foreign_message; own_message] warm_interface "g1").
  - exact warm_interface_ready.
  - discriminate.
Defined.

Lemma max_created_at_attained first rest :
  exists info, info ∈ first :: rest /\ mi_created_at info = max_created_at first rest.
Proof.
  unfold max_created_at.
  assert (H : forall acc l,
             foldl (fun a info => Z.max a (mi_created_at info)) acc l = acc \/
             exists info, info ∈ l /\
               mi_created_at info = foldl (fun a info => Z.max a (mi_created_at info)) acc l).
  { intros acc l. revert acc. induction l as [|x l IH]; intros acc; cbn [foldl]; [by left|].
    destruct (IH (Z.max acc (mi_created_at x))) as [Hacc | (info & Hin & Hinfo)].
    - rewrite Hacc. destruct (Z.max_spec acc (mi_created_at x)) as [[_ ->] | [_ ->]].
      + right. exists x. split; [apply list_elem_of_here | reflexivity].
      + by left.
    - right. exists info. split; [by apply list_elem_of_further | exact Hinfo]. }
  destruct (H (mi_created_at first) rest) as [-> | (info & Hin & Hinfo)].
  - exists first. split; [apply list_elem_of_here | reflexivity].
  - exists info. split; [by apply list_elem_of_further | exact Hinfo].
Qed.

Lemma collect_new_cursor g g' group_id msgs :
  current_user_id g' = current_user_id g ->
  (forall info, info ∈ collect_new g group_id msgs ->
                (mi_created_at info <= last_message_time g')%Z) ->
  (last_message_time g <= last_message_time g')%Z ->
  collect_new g' group_id msgs = [].
Proof.
  intros Huser Hbound Hmono.
  induction msgs as [|msg rest IH]; [done|].
  cbn [collect_new] in *. rewrite Huser.
  destruct (last_message_time g' <? rm_created_at msg)%Z eqn:Hnew'.
  - apply Z.ltb_lt in Hnew'.
    destruct (last_message_time g <? rm_created_at msg)%Z eqn:Hnew;
      [|apply Z.ltb_ge in Hnew; lia].
    destruct (negb _).
    + specialize (Hbound (message_info group_id msg) (list_elem_of_here _ _)).
      cbn in Hbound. lia.
    + by apply IH.
  - destruct (last_message_time g <? rm_created_at msg)%Z; [|by apply IH].
    destruct (negb _); [|by apply IH].
    apply IH. intros info Hin. by apply Hbound, list_elem_of_further.
Qed.

(** Extra X23.  A poll leaves the interface unchanged when it finds no
    new message of another user, and otherwise moves the cursor to the
    newest [created_at] found; polling the same answer again hands back
    nothing and changes nothing. *)
Theorem poll_cursor_and_repeat (msgs : list RawMessage) (g : GroupMeInterface)
    (group_id : string) :
  ready g group_id ->
  let g' := snd (poll_new_messages (Response msgs) g) in
  match collect_new g group_id msgs with
  | [] => g' = g
  | found =>
      (exists info, info ∈ found /\ last_message_time g' = mi_created_at info) /\
      (forall info, info ∈ found -> (mi_created_at info <= last_message_time g')%Z)
  end /\
  poll_new_messages (Response msgs) g' = (Ok [], g').
Proof.
  intros Hready g'. unfold g'.
  rewrite (poll_response_general msgs g group_id Hready). cbn [snd].
  destruct (collect_new g group_id msgs) as [|first rest] eqn:Hnew.
  - split; [reflexivity|].
    rewrite (poll_response_general msgs g group_id Hready), Hnew.
    by destruct (_ =? _)%Z.
  - pose proof (max_created_at_bounds first rest) as [Hhead Htail].
    destruct (max_created_at_attained first rest) as (top & Hin & Htop).
    assert (Hbound : forall info, info ∈ first :: rest ->
                       (mi_created_at info <= max_created_at first rest)%Z).
    { intros info [-> | H]%elem_of_cons; [exact Hhead | by apply Htail]. }
    split; [split; [by exists top | exact Hbound]|].
    set (g1 := set_last_message_time (max_created_at first rest) g).
    assert (Hready1 : ready g1 group_id) by exact Hready.
    assert (Hempty : collect_new g1 group_id msgs = []).
    { apply (collect_new_cursor g); [reflexivity | by rewrite Hnew |].
      cbn. assert (first ∈ collect_new g group_id msgs) as Hf
        by (rewrite Hnew; apply list_elem_of_here).
      apply collect_new_newer in Hf. lia. }
    rewrite (poll_response_general msgs g1 group_id Hready1), Hempty.
    by destruct (_ =? _)%Z.
Qed.

Lemma poll_cursor_and_repeat_witness :
  let g' := snd (poll_new_messages (Response [foreign_message; own_message]) warm_interface) in
  match collect_new warm_interface "g1" [foreign_message; own_message] with
  | [] => g' = warm_interface
  | found =>
      (exists info, info ∈ found /\ last_message_time g' = mi_created_at info) /\
      (forall info, info ∈ found -> (mi_created_at info <= last_message_time g')%Z)
  end /\
  poll_new_messages (Response [foreign_message; own_message]) g' = (Ok [], g').
Proof.
  apply (poll_cursor_and_repeat [foreign_message; own_message] warm_interface "g1").
  exact warm_interface_ready.
Defined.

(** Extra X24.  After [set_bot_server] the next poll is a first run
    again: it returns the empty list, and the messages it skipped are
    never handed back by later polls. *)
Theorem set_bot_server_rearms_first_run (group_id : string) (msgs : list RawMessage)
    (g : GroupMeInterface) :
  group_id <> "" ->
  access_token g <> "" ->
  fst (poll_new_messages (Response msgs) (set_bot_server group_id g)) = Ok [] /\
  forall info, info ∈ collect_new (set_bot_server group_id g) group_id msgs ->
    forall later,
      info ∉ fst (poll_repeatedly later
                    (snd (poll_new_messages (Response msgs) (set_bot_server group_id g)))).
Proof.
  intros Hgid Htok.
  assert (Hready : ready (set_bot_server group_id g) group_id) by done.
  rewrite (poll_response_general msgs _ group_id Hready). cbn [fst snd].
  split; [reflexivity|].
  intros info Hin later Hback. apply poll_repeatedly_newer in Hback.
  destruct (collect_new (set_bot_server group_id g) group_id msgs) as [|first rest] eqn:Hnew;
    [by apply elem_of_nil in Hin|].
  cbn in Hback.
  pose proof (max_created_at_bounds first rest) as [Hhead Htail].
  apply elem_of_cons in Hin as [-> | Hin]; [lia|].
  specialize (Htail info Hin). lia.
Qed.

Lemma set_bot_server_rearms_first_run_witness :
  fst (poll_new_messages (Response [foreign_message]) (set_bot_server "g2" warm_interface))
  = Ok [] /\
  forall info, info ∈ collect_new (set_bot_server "g2" warm_interface) "g2" [foreign_message] ->
    forall later,
      info ∉ fst (poll_repeatedly later
                    (snd (poll_new_messages (Response [foreign_message])
                            (set_bot_server "g2" warm_interface)))).
Proof.
  apply (set_bot_server_rearms_first_run "g2" [foreign_message] warm_interface).
  - discriminate.
  - discriminate.
Defined.


Lemma poll_keeps_identity resp g :
  access_token (snd (poll_new_messages resp g)) = access_token g /\
  bot_group_id (snd (poll_new_messages resp g)) = bot_group_id g /\
  current_user_id (snd (poll_new_messages resp g)) = current_user_id g.
Proof.
  unfold poll_new_messages.
  destruct (bot_group_id g) as [[|c s]|] eqn:Hgid; cbn [snd]; try done.
  destruct (String.eqb _ _); cbn [snd]; [done|].
  destruct resp as [err|msgs]; cbn [snd]; [done|].
  by destruct (collect_new g (String c s) msgs).
Qed.

Lemma should_send_keeps_catalog now sample m :
  config (snd (should_send_random_message now sample m)) = config m /\
  saved_config (snd (should_send_random_message now sample m)) = saved_config m /\
  messages (snd (should_send_random_message now sample m)) = messages m.
Proof.
  unfold should_send_random_message. cbn [snd]. by destruct (_ <=? _)%Z.
Qed.


Lemma same_setup_refl bc : same_setup bc bc.
Proof. by repeat split. Qed.

Lemma same_setup_trans bc1 bc2 bc3 :
  same_setup bc1 bc2 -> same_setup bc2 bc3 -> same_setup bc1 bc3.
Proof.
  intros (?&?&?&?&?&?&?) (?&?&?&?&?&?&?). repeat split; congruence.
Qed.

Lemma process_polling_cycle_setup env bc :
  same_setup bc (snd (_process_polling_cycle env bc)).
Proof.
  unfold _process_polling_cycle.
  pose proof (poll_keeps_identity (response env) (groupme_interface bc)) as (Ht & Hg & Hu).
  destruct (poll_new_messages _ _) as [[new_messages|e|] g']; cbn [snd] in *.
  - pose proof (should_send_keeps_catalog (now env) (sample env) (message_manager bc))
      as (Hc & Hs & Hm).
    destruct (should_send_random_message _ _ _) as [[[]|e|] m']; cbn [snd] in *;
      by repeat split.
  - by repeat split.
  - by repeat split.
Qed.

Lemma loop_iteration_setup env last bc :
  same_setup bc (snd (loop_iteration env last bc)).
Proof.
  unfold loop_iteration.
  pose proof (process_polling_cycle_setup env bc) as Hcycle.
  destruct (if interval_changed _ _ then _ else _) as [q|e|]; cbn [snd];
    try apply same_setup_refl.
  destruct (_process_polling_cycle env bc) as [events bc'].
  by destruct (number _).
Qed.

Lemma loop_iteration_one_sleep env last bc :
  length (List.filter is_sleep (fst (fst (loop_iteration env last bc)))) = 1%nat.
Proof.
  assert (Hcycle : List.filter is_sleep (fst (_process_polling_cycle env bc)) = []).
  { unfold _process_polling_cycle.
    destruct (poll_new_messages _ _) as [[new_messages|e|] g']; cbn [fst]; [|done..].
    assert (Hreplies : List.filter is_sleep (_process_incoming_message <$> new_messages) = []).
    { induction new_messages as [|x l IH]; [done|]. exact IH. }
    destruct (should_send_random_message _ _ _) as [[[]|e|] m']; cbn [fst];
      rewrite ?List.filter_app, Hreplies; done. }
  unfold loop_iteration.
  destruct (if interval_changed _ _ then _ else _) as [q|e|]; cbn [fst]; try done.
  destruct (_process_polling_cycle env bc) as [events bc']. cbn [fst] in Hcycle.
  destruct (number _); cbn [fst]; by rewrite List.filter_app, Hcycle.
Qed.

(** Extra X25.  Started on a polling interval that is a number of
    (0, 3600], the loop performs every iteration while [running] is set
    and each one sleeps exactly once, and with [running] cleared it does
    nothing; started on an interval that is not a number, the coroutine
    ends with [TypeError] before the first iteration, without a sleep and
    without an error record. *)
Theorem polling_loop_sleeps_once_per_iteration (envs : list cycle_env) (bc : BotController) :
  (interval_valid (config (message_manager bc)) ->
   if running bc
   then length (List.filter is_sleep (fst (_polling_loop envs bc))) = length envs
   else _polling_loop envs bc = ([], bc)) /\
  (number (Py.get (config (message_manager bc)) "polling_interval_seconds" (VInt 120))
   = Raise TypeError ->
   _polling_loop envs bc = ([CoroutineRaised TypeError], bc)).
Proof.
  split; [|by unfold _polling_loop; intros ->].
  intros (q & Hq & _). unfold _polling_loop. rewrite Hq.
  generalize (@None value) as last.
  destruct (running bc) eqn:Hrun; [|by destruct envs; cbn; rewrite ?Hrun].
  clear q Hq. revert bc Hrun. induction envs as [|env rest IH]; intros bc Hrun last; [done|].
  cbn [polling_iterations]. rewrite Hrun.
  pose proof (loop_iteration_one_sleep env last bc) as Hone.
  pose proof (loop_iteration_setup env last bc) as (Hrun' & _).
  destruct (loop_iteration env last bc) as [[events last'] bc']. cbn [fst snd] in *.
  specialize (IH bc' (eq_trans Hrun' Hrun) last').
  destruct (polling_iterations rest last' bc') as [later bc'']. cbn [fst] in *.
  rewrite List.filter_app, length_app. cbn [length]. lia.
Qed.

(** Two iterations on the default interval, and a start on the interval
    ["soon"]. *)
Lemma polling_loop_sleeps_once_per_iteration_witness :
  length (List.filter is_sleep
            (fst (_polling_loop [failing_cycle; failing_cycle] fresh_controller))) = 2%nat /\
  (let bc := {| groupme_interface := fresh_interface;
                message_manager :=
                  set_config (<[ "polling_interval_seconds" := VStr "soon" ]> default_config)
                    fresh_manager;
                running := true |} in
   _polling_loop [failing_cycle] bc = ([CoroutineRaised TypeError], bc)).
Proof.
  split.
  - apply (proj1 (polling_loop_sleeps_once_per_iteration [failing_cycle; failing_cycle]
                    fresh_controller)).
    exact default_config_interval_valid.
  - cbn zeta.
    apply (proj2 (polling_loop_sleeps_once_per_iteration [failing_cycle] _)).
    reflexivity.
Defined.

(** Extra X26.  The loop never changes the running flag, the
    configuration, the saved file, the catalog, or the identity of the
    interface (token, group, user). *)
Theorem polling_loop_keeps_setup (envs : list cycle_env) (bc : BotController) :
  same_setup bc (snd (_polling_loop envs bc)).
Proof.
  unfold _polling_loop. destruct (number _); [|apply same_setup_refl..].
  generalize (@None value) as last. revert bc.
  induction envs as [|env rest IH]; intros bc last; [apply same_setup_refl|].
  cbn [polling_iterations].
  destruct (running bc); [|apply same_setup_refl].
  pose proof (loop_iteration_setup env last bc) as Hstep.
  destruct (loop_iteration env last bc) as [[events last'] bc']. cbn [snd] in Hstep.
  specialize (IH bc' last').
  destruct (polling_iterations rest last' bc') as [later bc'']. cbn [snd] in *.
  by eapply same_setup_trans.
Qed.


Lemma filter_filter_comm {A} (P Q : A -> bool) (l : list A) :
  List.filter P (List.filter Q l) = List.filter Q (List.filter P l).
Proof.
  induction l as [|x l IH]; [done|]. cbn.
  destruct (P x) eqn:HP, (Q x) eqn:HQ; cbn; rewrite ?HP, ?HQ, IH; done.
Qed.

Lemma filter_filter_same {A} (P : A -> bool) (l : list A) :
  List.filter P (List.filter P l) = List.filter P l.
Proof.
  induction l as [|x l IH]; [done|]. cbn.
  destruct (P x) eqn:HP; cbn; rewrite ?HP, IH; done.
Qed.

(** Extra X28.  [cleanup_old_messages] keeps exactly the entities newer
    than the cutoff, in order, whatever their flags; it commutes with the
    pending filter, is idempotent, and leaves configuration and counter
    alone. *)
Theorem cleanup_keeps_recent (now days : Z) (m : MessageManager) :
  let recent := fun msg => (now - days * 86400000000 <? mo_timestamp msg)%Z in
  let m' := cleanup_old_messages now days m in
  (forall o, o ∈ messages m' <->
             o ∈ messages m /\ (now - days * 86400000000 < mo_timestamp o)%Z) /\
  get_pending_messages m' = List.filter recent (get_pending_messages m) /\
  cleanup_old_messages now days m' = m' /\
  config m' = config m /\
  messages_per_day m' = messages_per_day m.
Proof.
  intros recent m'. unfold m', cleanup_old_messages. cbn zeta.
  split; [|split; [|split; [|done]]].
  - intros o. cbn [messages set_messages].
    rewrite !list_elem_of_In, filter_In, Z.ltb_lt. reflexivity.
  - unfold get_pending_messages. cbn [messages set_messages].
    apply filter_filter_comm.
  - unfold set_messages. cbn. f_equal. apply filter_filter_same.
Qed.
